(** * pkg/config/config.go: ConfigMaps built from configuration directories

    A shallow embedding of the Go package [config] of the Spark operator and
    the properties of it that the specification states.  The embedding keeps
    the shape of the Go code: multiple return values are tuples, a pointer
    that may be [nil] is an [option], a Go [error] is an [option error], a Go
    map that may be [nil] is an [option (gmap _ _)], run-time panics are an
    explicit outcome, and the objects mutated through pointers (the
    SparkApplication and the cluster behind the client) are threaded as
    state. *)

From Stdlib Require Import NArith ZArith Lia.
From Stdlib Require Import Strings.String Strings.Ascii Strings.Byte.
From Stdlib Require Import Numbers.DecimalString Numbers.DecimalN.
From stdpp Require Import base option list gmap strings.

Local Open Scope string_scope.

(** ** The Go runtime, as far as the package relies on it *)

(** A non-nil value of the interface type [error]. *)
Inductive error : Type :=
| errorString (msg : string).

(** The run-time panics the package can raise. *)
Inductive panic : Type :=
| NilPointerDereference
| NilMapAssignment.

Inductive outcome (A : Type) : Type :=
| Returns (a : A)
| Panics (p : panic).
Arguments Returns {A} a.
Arguments Panics {A} p.

(** [string(bytes)] and [[]byte(s)]: both conversions keep the bytes. *)
Definition string_of_bytes (bs : list byte) : string := string_of_list_byte bs.
Definition bytes_of_string (s : string) : list byte := list_byte_of_string s.

(** [fmt.Sprintf("%d", n)] at an unsigned integer [n]. *)
Definition Sprintf_d (n : N) : string := NilEmpty.string_of_uint (N.to_uint n).

(** [m[k]] in its two-value form, on a map that may be nil: reading a nil
    map is allowed and finds nothing. *)
Definition map_index (m : option (gmap string string)) (k : string) : string * bool :=
  match m with
  | None => ("", false)
  | Some m =>
      match m !! k with
      | Some v => (v, true)
      | None => ("", false)
      end
  end.

(** [m[k] = v]: assigning into a nil map panics. *)
Definition map_assign (m : option (gmap string string)) (k v : string)
  : outcome (option (gmap string string)) :=
  match m with
  | None => Panics NilMapAssignment
  | Some m => Returns (Some (<[k := v]> m))
  end.

(** ** The Kubernetes API objects the package touches

    Every record lists the fields the package reads or writes, and for the
    volume source also the other fields of the API type, which the package
    leaves at their zero values. *)

Module FileInfo.
(** [os.FileInfo], as returned by [ioutil.ReadDir]. *)
Record t : Type := mk {
  Name : string;
  Size : Z;
  ModTime : Z;
  IsDir : bool
}.
End FileInfo.

Module ConfigMap.
Record t : Type := mk {
  Name : string;
  Namespace : string;
  Data : gmap string string
}.
End ConfigMap.

Module LocalObjectReference.
Record t : Type := mk { Name : string }.
End LocalObjectReference.

Module KeyToPath.
Record t : Type := mk { Key : string; Path : string; Mode : option Z }.
End KeyToPath.

Module ConfigMapVolumeSource.
Record t : Type := mk {
  LocalObjectReference : LocalObjectReference.t;
  Items : list KeyToPath.t;
  DefaultMode : option Z;
  Optional : option bool
}.
End ConfigMapVolumeSource.

Module PersistentVolumeClaimVolumeSource.
Record t : Type := mk { ClaimName : string; ReadOnly : bool }.
End PersistentVolumeClaimVolumeSource.

Module VolumeSource.
(** The struct of optional sources, of which exactly one is meant to be
    set; the ConfigMap source is the one this package sets, the claim
    source stands for the sources that carry a [ReadOnly] flag. *)
Record t : Type := mk {
  ConfigMap : option ConfigMapVolumeSource.t;
  PersistentVolumeClaim : option PersistentVolumeClaimVolumeSource.t
}.
End VolumeSource.

Module Volume.
Record t : Type := mk {
  Name : string;
  VolumeSource : VolumeSource.t
}.
End Volume.

Module VolumeMount.
Record t : Type := mk {
  Name : string;
  ReadOnly : bool;
  MountPath : string
}.
End VolumeMount.

Module EnvVar.
Record t : Type := mk { Name : string; Value : string }.
End EnvVar.

Module Container.
Record t : Type := mk {
  Name : string;
  VolumeMounts : list VolumeMount.t;
  Env : list EnvVar.t
}.
End Container.

Module PodSpec.
Record t : Type := mk {
  Volumes : list Volume.t;
  Containers : list Container.t
}.
End PodSpec.

Module Pod.
Record t : Type := mk {
  Name : string;
  Spec : PodSpec.t
}.
End Pod.

Module SparkApplicationSpec.
(** Modelled from the spec: the declaration of [SparkApplicationSpec], of
    package [v1alpha1], is not among the sources.  The record has the fields
    this package uses, at the types its uses fix: [SparkConf] is indexed and
    assigned as a map from strings to strings (the annotation set of the
    specification, a mapping from an annotation key to a single string
    value), and as a Go map it may be nil; the two ConfigMap names are
    pointers to strings, allocated by [new(string)] when they are assigned
    (the optional field via late allocation of the specification). *)
Record t : Type := mk {
  SparkConf : option (gmap string string);
  SparkConfigMap : option string;
  HadoopConfigMap : option string
}.
End SparkApplicationSpec.

Module SparkApplication.
(** Modelled from the spec: the declaration of [SparkApplication], of package
    [v1alpha1], is not among the sources.  The record has the two fields
    this package uses: the [UID], which is the owner identifier of the
    specification and is converted to a string where it is used, and the
    [Spec]. *)
Record t : Type := mk {
  UID : string;
  Spec : SparkApplicationSpec.t
}.
End SparkApplication.

(** ** The constants of the package *)

Definition SparkConfigMapNamePrefix := "spark-config-map".
Definition SparkConfigMapVolumeName := "spark-config-map-volume".
Definition HadoopConfigMapNamePrefix := "hadoop-config-map".
Definition HadoopConfigMapVolumeName := "hadoop-config-map-volume".

Definition LabelAnnotationPrefix := "apache-spark-on-k8s/".
Definition SparkConfigMapAnnotation := LabelAnnotationPrefix +:+ "spark-config-map".
Definition HadoopConfigMapAnnotation := LabelAnnotationPrefix +:+ "hadoop-config-map".

Definition SparkDriverAnnotationsKey := "spark.kubernetes.driver.annotations".
Definition SparkExecutorAnnotationsKey := "spark.kubernetes.executor.annotations".
Definition SparkConfDirEnvVar := "SPARK_CONF_DIR".
Definition HadoopConfDirEnvVar := "HADOOP_CONF_DIR".

(** ** The collaborators of the package, as interfaces *)

(** [util.NewHash32] returns a [hash.Hash32]; the package uses its [Write]
    and [Sum32] methods.  The hasher is mutated by [Write], so its state is
    passed along. *)
Class Hash32 : Type := {
  hash_state : Type;
  NewHash32 : hash_state;
  Write : hash_state -> list byte -> hash_state;
  Sum32 : hash_state -> N;
  Sum32_uint32 : forall h, (Sum32 h < 2 ^ 32)%N
}.

(** The directory and file primitives: [ioutil.ReadDir], [ioutil.ReadFile]
    and [filepath.Join].  The first two return a value and an error. *)
Class Platform : Type := {
  ioutil_ReadDir : string -> list FileInfo.t * option error;
  ioutil_ReadFile : string -> list byte * option error;
  filepath_Join : string -> string -> string
}.

(** [kubeClient.CoreV1().ConfigMaps(namespace).Create(configMap)]: takes
    and returns a pointer to a ConfigMap, returns an error, and acts on the
    cluster behind the client. *)
Class KubeClient : Type := {
  cluster : Type;
  ConfigMaps_Create :
    string -> option ConfigMap.t -> cluster ->
    (option ConfigMap.t * option error) * cluster
}.

(** ** The package *)

Section Config.
Context {hash32 : Hash32} {platform : Platform} {kube : KubeClient}.

(** *** The mutable objects and the monad that threads them

    The functions of the package receive a pointer to the SparkApplication
    and a client of the cluster; both are mutated in place.  A computation
    takes the two objects, returns normally or panics, and leaves the two
    objects in their final state either way. *)

Record world : Type := World {
  the_app : SparkApplication.t;
  the_cluster : cluster
}.

Definition M (A : Type) : Type := world -> outcome A * world.

#[global] Instance M_ret : MRet M := fun A a w => (Returns a, w).

#[global] Instance M_bind : MBind M := fun A B f m w =>
  match m w with
  | (Returns a, w') => f a w'
  | (Panics p, w') => (Panics p, w')
  end.

Definition get_app : M SparkApplication.t :=
  fun w => (Returns (the_app w), w).

Definition set_Spec (spec : SparkApplicationSpec.t) : M unit :=
  fun w =>
    (Returns tt,
     World (SparkApplication.mk (SparkApplication.UID (the_app w)) spec)
           (the_cluster w)).

(** [p.f] on a pointer [p]: a nil pointer panics. *)
Definition deref {A : Type} (p : option A) : M A :=
  fun w =>
    match p with
    | Some a => (Returns a, w)
    | None => (Panics NilPointerDereference, w)
    end.

Definition lift_outcome {A : Type} (o : outcome A) : M A :=
  fun w => (o, w).

Definition Create (namespace : string) (configMap : option ConfigMap.t)
  : M (option ConfigMap.t * option error) :=
  fun w =>
    let '(r, c) := ConfigMaps_Create namespace configMap (the_cluster w) in
    (Returns r, World (the_app w) c).

(** [app.Spec.SparkConf[k] = v] *)
Definition assign_SparkConf (k v : string) : M unit :=
  app ← get_app;
  let spec := SparkApplication.Spec app in
  conf ← lift_outcome (map_assign (SparkApplicationSpec.SparkConf spec) k v);
  set_Spec (SparkApplicationSpec.mk conf
              (SparkApplicationSpec.SparkConfigMap spec)
              (SparkApplicationSpec.HadoopConfigMap spec)).

(** [app.Spec.SparkConfigMap = new(string); *app.Spec.SparkConfigMap = name] *)
Definition assign_SparkConfigMap (name : string) : M unit :=
  app ← get_app;
  let spec := SparkApplication.Spec app in
  set_Spec (SparkApplicationSpec.mk
              (SparkApplicationSpec.SparkConf spec)
              (Some name)
              (SparkApplicationSpec.HadoopConfigMap spec)).

Definition assign_HadoopConfigMap (name : string) : M unit :=
  app ← get_app;
  let spec := SparkApplication.Spec app in
  set_Spec (SparkApplicationSpec.mk
              (SparkApplicationSpec.SparkConf spec)
              (SparkApplicationSpec.SparkConfigMap spec)
              (Some name)).

(** *** AddConfigMapAnnotation *)

Definition AddConfigMapAnnotation (annotationConfKey key value : string) : M unit :=
  app ← get_app;
  let '(annotations, ok) :=
    map_index (SparkApplicationSpec.SparkConf (SparkApplication.Spec app))
              annotationConfKey in
  if ok
  then assign_SparkConf annotationConfKey
         (annotations +:+ "," +:+ key +:+ "=" +:+ value)
  else assign_SparkConf annotationConfKey (key +:+ "=" +:+ value).

(** *** buildConfigMapFromConfigDir *)

(** The [for _, file := range files] loop: [inr] is the early return with
    the error of [ioutil.ReadFile], [inl] is the state of the hasher and
    of [data] when the loop runs to its end. *)
Fixpoint buildConfigMapFromConfigDir_loop (dir : string) (files : list FileInfo.t)
    (hasher : hash_state) (data : gmap string string)
  : (hash_state * gmap string string) + error :=
  match files with
  | [] => inl (hasher, data)
  | file :: files =>
      if FileInfo.IsDir file
      then buildConfigMapFromConfigDir_loop dir files hasher data
      else
        let '(bytes, err) :=
          ioutil_ReadFile (filepath_Join dir (FileInfo.Name file)) in
        match err with
        | Some e => inr e
        | None =>
            buildConfigMapFromConfigDir_loop dir files
              (Write hasher bytes)
              (<[FileInfo.Name file := string_of_bytes bytes]> data)
        end
  end.

Definition buildConfigMapFromConfigDir (dir namePrefix namespace appUID : string)
  : option ConfigMap.t * option error :=
  let '(files, err) := ioutil_ReadDir dir in
  match err with
  | Some e => (None, Some e)
  | None =>
      match buildConfigMapFromConfigDir_loop dir files NewHash32 ∅ with
      | inr e => (None, Some e)
      | inl (hasher, data) =>
          let hasher := Write hasher (bytes_of_string dir) in
          let hasher := Write hasher (bytes_of_string namespace) in
          let hasher := Write hasher (bytes_of_string appUID) in
          (Some (ConfigMap.mk
                   (namePrefix +:+ "-" +:+ Sprintf_d (Sum32 hasher))
                   namespace
                   data),
           None)
      end
  end.

(** *** createConfigMap *)

Definition createConfigMap (dir namespace namePrefix : string)
  : M (string * option error) :=
  app ← get_app;
  let '(configMap, err) :=
    buildConfigMapFromConfigDir dir namePrefix namespace
      (SparkApplication.UID app) in
  match err with
  | Some e =>
      cm ← deref configMap;
      mret (ConfigMap.Name cm, Some e)
  | None =>
      r ← Create namespace configMap;
      let '(configMap, err) := r in
      match err with
      | Some e =>
          cm ← deref configMap;
          mret (ConfigMap.Name cm, Some e)
      | None =>
          cm ← deref configMap;
          mret (ConfigMap.Name cm, None)
      end
  end.

(** *** CreateSparkConfigMap and CreateHadoopConfigMap *)

Definition CreateSparkConfigMap (sparkConfDir namespace : string) : M (option error) :=
  r ← createConfigMap sparkConfDir namespace SparkConfigMapNamePrefix;
  let '(name, err) := r in
  match err with
  | Some e => mret (Some e)
  | None =>
      AddConfigMapAnnotation SparkDriverAnnotationsKey SparkConfigMapAnnotation name;;
      AddConfigMapAnnotation SparkExecutorAnnotationsKey SparkConfigMapAnnotation name;;
      assign_SparkConfigMap name;;
      mret None
  end.

Definition CreateHadoopConfigMap (hadoopConfDir namespace : string) : M (option error) :=
  r ← createConfigMap hadoopConfDir namespace HadoopConfigMapNamePrefix;
  let '(name, err) := r in
  match err with
  | Some e => mret (Some e)
  | None =>
      AddConfigMapAnnotation SparkDriverAnnotationsKey HadoopConfigMapAnnotation name;;
      AddConfigMapAnnotation SparkExecutorAnnotationsKey HadoopConfigMapAnnotation name;;
      assign_HadoopConfigMap name;;
      mret None
  end.

End Config.

(** *** Volumes, mounts and environment variables

  The pod and the container are mutated through their pointers; the
  functions return the mutated object. *)

Definition addConfigMapVolumeToPod (configMapName configMapVolumeName : string)
  (pod : Pod.t) : string * Pod.t :=
let volume :=
  Volume.mk configMapVolumeName
    (VolumeSource.mk
       (Some (ConfigMapVolumeSource.mk
                (LocalObjectReference.mk configMapName) [] None None))
       None) in
(Volume.Name volume,
 Pod.mk (Pod.Name pod)
   (PodSpec.mk (PodSpec.Volumes (Pod.Spec pod) ++ [volume])
               (PodSpec.Containers (Pod.Spec pod)))).

Definition AddSparkConfigMapVolumeToPod (configMapName : string) (pod : Pod.t) :=
addConfigMapVolumeToPod configMapName SparkConfigMapVolumeName pod.

Definition AddHadoopConfigMapVolumeToPod (configMapName : string) (pod : Pod.t) :=
addConfigMapVolumeToPod configMapName HadoopConfigMapVolumeName pod.

Definition mountConfigMapToContainer (volumeName mountPath env : string)
  (container : Container.t) : Container.t :=
let volumeMount := VolumeMount.mk volumeName true mountPath in
let appCredentialEnvVar := EnvVar.mk env mountPath in
Container.mk (Container.Name container)
  (Container.VolumeMounts container ++ [volumeMount])
  (Container.Env container ++ [appCredentialEnvVar]).

Definition MountSparkConfigMapToContainer (volumeName mountPath : string)
  (container : Container.t) : Container.t :=
mountConfigMapToContainer volumeName mountPath SparkConfDirEnvVar container.

Definition MountHadoopConfigMapToContainer (volumeName mountPath : string)
  (container : Container.t) : Container.t :=
mountConfigMapToContainer volumeName mountPath HadoopConfDirEnvVar container.

(** ** Instances of the collaborators, to run the package on concrete inputs *)

Module fnv.
(** Modelled from the spec: [util.NewHash32] is declared in package [util],
    which is not among the sources of this package; the specification says
    of it only that it is a running 32-bit hash accumulator.  The instance
    below is one such accumulator, the 32-bit FNV-1 hash of Go's [hash/fnv],
    and serves to evaluate the package on concrete inputs.  The theorems
    hold for every instance of [Hash32]. *)
Definition offset32 : N := 2166136261.
Definition prime32 : N := 16777619.

Definition write_byte (h : N) (b : byte) : N :=
  N.lxor ((h * prime32) mod 2 ^ 32) (Byte.to_N b).

Definition write (h : N) (bs : list byte) : N := fold_left write_byte bs h.

Definition sum32 (h : N) : N := h mod 2 ^ 32.

Definition sum32_uint32 (h : N) : (sum32 h < 2 ^ 32)%N :=
  N.mod_lt h (2 ^ 32) ltac:(discriminate).

#[export] Instance hash32 : Hash32 := {|
  hash_state := N;
  NewHash32 := offset32;
  Write := write;
  Sum32 := sum32;
  Sum32_uint32 := sum32_uint32
|}.
End fnv.

Module memfs.
(** A file system held in memory: the listing of every directory and the
    content of every file, by path.  A path that is not there fails to
    open. *)
Record t : Type := mk {
  dirs : list (string * list FileInfo.t);
  files : list (string * list byte)
}.

Fixpoint find {A : Type} (path : string) (l : list (string * A)) : option A :=
  match l with
  | [] => None
  | (p, a) :: l => if String.eqb p path then Some a else find path l
  end.

Definition ENOENT (path : string) : error :=
  errorString ("open " +:+ path +:+ ": no such file or directory").

Definition ReadDir (fs : t) (dir : string) : list FileInfo.t * option error :=
  match find dir (dirs fs) with
  | Some entries => (entries, None)
  | None => ([], Some (ENOENT dir))
  end.

Definition ReadFile (fs : t) (path : string) : list byte * option error :=
  match find path (files fs) with
  | Some bytes => (bytes, None)
  | None => ([], Some (ENOENT path))
  end.

(** [filepath.Join] on two elements that are already clean. *)
Definition Join (dir name : string) : string := dir +:+ "/" +:+ name.

Definition platform (fs : t) : Platform := {|
  ioutil_ReadDir := ReadDir fs;
  ioutil_ReadFile := ReadFile fs;
  filepath_Join := Join
|}.
End memfs.

Module memkube.
(** A cluster held in memory: the ConfigMaps created so far.  Creating a
    second object of the same namespace and name fails; as in the typed
    client, the returned pointer is then to an empty object. *)
Definition exists_in (namespace name : string) (c : list ConfigMap.t) : bool :=
  existsb (fun cm => String.eqb (ConfigMap.Namespace cm) namespace
                     && String.eqb (ConfigMap.Name cm) name) c.

Definition AlreadyExists (name : string) : error :=
  errorString ("configmaps " +:+ name +:+ " already exists").

Definition Create (namespace : string) (configMap : option ConfigMap.t)
    (c : list ConfigMap.t) : (option ConfigMap.t * option error) * list ConfigMap.t :=
  match configMap with
  | None => ((Some (ConfigMap.mk "" "" ∅), Some (errorString "nil object")), c)
  | Some cm =>
      if exists_in namespace (ConfigMap.Name cm) c
      then ((Some (ConfigMap.mk "" "" ∅), Some (AlreadyExists (ConfigMap.Name cm))), c)
      else
        let created := ConfigMap.mk (ConfigMap.Name cm) namespace (ConfigMap.Data cm) in
        ((Some created, None), (c ++ [created])%list)
  end.

#[export] Instance client : KubeClient := {|
  cluster := list ConfigMap.t;
  ConfigMaps_Create := Create
|}.

(** A client whose every create fails and returns a nil pointer with the
    error, as a fake client with a failing reactor does. *)
Definition Unavailable : error := errorString "the server is currently unable to handle the request".

#[export] Instance failing_client : KubeClient := {|
  cluster := unit;
  ConfigMaps_Create := fun _ _ c => ((None, Some Unavailable), c)
|}.
End memkube.

Module Fixture.
(** The scenario of the specification: a configuration directory with two
    files (and a subdirectory, which the listing also shows), the namespace
    [ns1] and the owner [uid-123]. *)
Definition conf_dir : list FileInfo.t :=
  [FileInfo.mk "log4j.properties" 3 1514764800 false;
   FileInfo.mk "metrics" 4096 1514764800 true;
   FileInfo.mk "spark-defaults.conf" 3 1514764800 false].

Definition fs : memfs.t :=
  memfs.mk
    [("/etc/spark/conf", conf_dir); ("/etc/empty", [])]
    [("/etc/spark/conf/log4j.properties", bytes_of_string "b=2");
     ("/etc/spark/conf/spark-defaults.conf", bytes_of_string "a=1")].

(** The same directory content on another machine: other sizes and
    modification times in the listing, other files elsewhere. *)
Definition fs' : memfs.t :=
  memfs.mk
    [("/etc/spark/conf",
      [FileInfo.mk "log4j.properties" 4096 1530000000 false;
       FileInfo.mk "metrics" 0 1530000000 true;
       FileInfo.mk "spark-defaults.conf" 4096 1530000001 false]);
     ("/tmp", [FileInfo.mk "scratch" 0 0 false])]
    [("/tmp/scratch", []);
     ("/etc/spark/conf/log4j.properties", bytes_of_string "b=2");
     ("/etc/spark/conf/spark-defaults.conf", bytes_of_string "a=1")].

(** A listing that names a file that cannot be read. *)
Definition broken_fs : memfs.t :=
  memfs.mk [("/etc/spark/conf", conf_dir)]
           [("/etc/spark/conf/log4j.properties", bytes_of_string "b=2")].

Definition app (conf : option (gmap string string)) : SparkApplication.t :=
  SparkApplication.mk "uid-123" (SparkApplicationSpec.mk conf None None).

Definition w0 (conf : option (gmap string string)) : @world memkube.client :=
  @World memkube.client (app conf) ([] : list ConfigMap.t).

Definition w1 (conf : option (gmap string string)) : @world memkube.failing_client :=
  @World memkube.failing_client (app conf) tt.

Definition pod : Pod.t :=
  Pod.mk "spark-pi-driver" (PodSpec.mk [] [Container.mk "spark-kubernetes-driver" [] []]).

Definition container : Container.t := Container.mk "spark-kubernetes-driver" [] [].
End Fixture.

(** ** What the specification says, in its own terms *)

(** One entry of an annotation value. *)
Definition annotation_entry (e : string * string) : string :=
  fst e +:+ "=" +:+ snd e.

(** The comma-joined list of entries. *)
Definition annotation_value (entries : list (string * string)) : string :=
  String.concat "," (map annotation_entry entries).

(** Reading an annotation value back: cut it at every comma. *)
Fixpoint split_commas (s : string) : list string :=
  match s with
  | EmptyString => [EmptyString]
  | String c s =>
      if Ascii.eqb c ","
      then EmptyString :: split_commas s
      else match split_commas s with
           | [] => [String c EmptyString]
           | x :: xs => String c x :: xs
           end
  end.

Fixpoint comma_free (s : string) : bool :=
  match s with
  | EmptyString => true
  | String c s => negb (Ascii.eqb c ",") && comma_free s
  end.

(** The value of an annotation key after one more entry: the entry alone
    when the key was absent, the old value with [,key=value] appended when it
    was present. *)
Definition appended (annotations : option string) (key value : string) : string :=
  match annotations with
  | Some annotations => annotations +:+ "," +:+ key +:+ "=" +:+ value
  | None => key +:+ "=" +:+ value
  end.

(** What registering one entry under an annotation key does to the map. *)
Definition registered (annotationConfKey key value : string)
    (conf : gmap string string) : gmap string string :=
  <[annotationConfKey := appended (conf !! annotationConfKey) key value]> conf.



Section BundleSpec.
Context {hash32 : Hash32} {platform : Platform}.

(** The non-directory entries of a listing, in listing order. *)
Definition regular_files (files : list FileInfo.t) : list FileInfo.t :=
  List.filter (fun file => negb (FileInfo.IsDir file)) files.

(** The bytes of the file that an entry of the listing of [dir] names. *)
Definition file_content (dir : string) (file : FileInfo.t) : list byte :=
  fst (ioutil_ReadFile (filepath_Join dir (FileInfo.Name file))).

Definition readable (dir : string) (file : FileInfo.t) : Prop :=
  snd (ioutil_ReadFile (filepath_Join dir (FileInfo.Name file))) = None.

(** The content map [{filename: content}] over the non-directory entries. *)
Definition bundle_files (dir : string) (files : list FileInfo.t) : gmap string string :=
  list_to_map
    (map (fun file => (FileInfo.Name file, string_of_bytes (file_content dir file)))
         (regular_files files)).

(** The accumulator fed each file's bytes in listing order, then the
    directory path, the namespace and the owner. *)
Definition bundle_hash (dir namespace appUID : string) (files : list FileInfo.t) : N :=
  Sum32
    (fold_left Write
       (map (file_content dir) (regular_files files)
          ++ [bytes_of_string dir; bytes_of_string namespace; bytes_of_string appUID])%list
       NewHash32).

Definition bundle_name (dir namePrefix namespace appUID : string)
    (files : list FileInfo.t) : string :=
  namePrefix +:+ "-" +:+ Sprintf_d (bundle_hash dir namespace appUID files).

End BundleSpec.

(** Two platforms show the same directory: the listings agree on the names
    and on which entries are directories, and every non-directory entry
    reads the same on both. *)
Definition same_entry (p1 p2 : Platform) (dir : string) (f1 f2 : FileInfo.t) : Prop :=
  FileInfo.Name f1 = FileInfo.Name f2 /\
  FileInfo.IsDir f1 = FileInfo.IsDir f2 /\
  (FileInfo.IsDir f1 = false ->
   @ioutil_ReadFile p1 (@filepath_Join p1 dir (FileInfo.Name f1))
   = @ioutil_ReadFile p2 (@filepath_Join p2 dir (FileInfo.Name f2))).

Definition same_directory (p1 p2 : Platform) (dir : string) : Prop :=
  snd (@ioutil_ReadDir p1 dir) = snd (@ioutil_ReadDir p2 dir) /\
  (snd (@ioutil_ReadDir p1 dir) = None ->
   Forall2 (same_entry p1 p2 dir)
     (fst (@ioutil_ReadDir p1 dir)) (fst (@ioutil_ReadDir p2 dir))).

Section CallSequences.
Context {hash32 : Hash32} {platform : Platform} {kube : KubeClient}.


(** The application with its [SparkConf] replaced. *)
Definition with_SparkConf (conf : option (gmap string string))
    (app : SparkApplication.t) : SparkApplication.t :=
  SparkApplication.mk (SparkApplication.UID app)
    (SparkApplicationSpec.mk conf
       (SparkApplicationSpec.SparkConfigMap (SparkApplication.Spec app))
       (SparkApplicationSpec.HadoopConfigMap (SparkApplication.Spec app))).

Definition SparkConf_of (w : world) : option (gmap string string) :=
  SparkApplicationSpec.SparkConf (SparkApplication.Spec (the_app w)).

End CallSequences.


(** ** Further definitions for the properties of the whole package *)

(** The default mount directories of the two ConfigMaps. *)
Definition DefaultSparkConfDir := "/etc/spark/conf".
Definition DefaultHadoopConfDir := "/etc/hadoop/conf".

(** The names of the volumes of a pod, in order. *)
Definition volume_names (pod : Pod.t) : list string :=
  map Volume.Name (PodSpec.Volumes (Pod.Spec pod)).

(** How many volumes of a pod carry a given name. *)
Definition volumes_named (name : string) (pod : Pod.t) : nat :=
  length (List.filter (fun v => String.eqb (Volume.Name v) name)
                      (PodSpec.Volumes (Pod.Spec pod))).

(** A hasher that runs over a stream: writing two chunks one after the
    other is writing their concatenation. *)
Definition streaming (hash32 : Hash32) : Prop :=
  forall (h : hash_state) (a b : list byte),
    Write (Write h a) b = Write h (a ++ b)%list.

Module Fixture2.
(** The directory of [Fixture.fs] with its two files renamed. *)
Definition renamed_fs : memfs.t :=
  memfs.mk
    [("/etc/spark/conf",
      [FileInfo.mk "a.properties" 3 0 false;
       FileInfo.mk "b.conf" 3 0 false])]
    [("/etc/spark/conf/a.properties", bytes_of_string "b=2");
     ("/etc/spark/conf/b.conf", bytes_of_string "a=1")].

(** The same bytes cut into files at another place. *)
Definition recut_fs : memfs.t :=
  memfs.mk
    [("/etc/spark/conf",
      [FileInfo.mk "one" 1 0 false;
       FileInfo.mk "two" 5 0 false])]
    [("/etc/spark/conf/one", bytes_of_string "b");
     ("/etc/spark/conf/two", bytes_of_string "=2a=1")].

(** A Hadoop configuration directory beside the Spark one. *)
Definition both_fs : memfs.t :=
  memfs.mk
    [("/etc/spark/conf", Fixture.conf_dir);
     ("/etc/hadoop/conf", [FileInfo.mk "core-site.xml" 16 0 false])]
    [("/etc/spark/conf/log4j.properties", bytes_of_string "b=2");
     ("/etc/spark/conf/spark-defaults.conf", bytes_of_string "a=1");
     ("/etc/hadoop/conf/core-site.xml", bytes_of_string "<configuration/>")].

(** The ConfigMap that [Fixture.fs] gives for the Spark directory. *)
Definition spark_cm : ConfigMap.t :=
  ConfigMap.mk "spark-config-map-2052736648" "ns1"
    (<["spark-defaults.conf" := "a=1"]> (<["log4j.properties" := "b=2"]> ∅)).

(** The ConfigMap that [both_fs] gives for the Hadoop directory. *)
Definition hadoop_cm : ConfigMap.t :=
  ConfigMap.mk "hadoop-config-map-2188450577" "ns1"
    (<["core-site.xml" := "<configuration/>"]> ∅).

(** A cluster that already holds the Spark ConfigMap. *)
Definition w_taken (conf : option (gmap string string)) : @world memkube.client :=
  @World memkube.client (Fixture.app conf) [spark_cm].
End Fixture2.

(** * Properties *)

(** ** Volumes, mounts and environment variables *)

(** C7. Wiring cardinality: one [addConfigMapVolumeToPod] and one
    [mountConfigMapToContainer] add exactly one volume to the pod, exactly
    one mount to the container, read-only, at [mountPath] and bound to
    [volumeName], and exactly one environment variable, whose value is
    [mountPath]; nothing that was there is changed. *)
Theorem wiring_cardinality
    (configMapName configMapVolumeName volumeName mountPath env : string)
    (pod : Pod.t) (container : Container.t) :
  let pod' := snd (addConfigMapVolumeToPod configMapName configMapVolumeName pod) in
  let container' := mountConfigMapToContainer volumeName mountPath env container in
  length (PodSpec.Volumes (Pod.Spec pod')) = S (length (PodSpec.Volumes (Pod.Spec pod))) /\
  length (Container.VolumeMounts container') = S (length (Container.VolumeMounts container)) /\
  length (Container.Env container') = S (length (Container.Env container)) /\
  Container.VolumeMounts container'
    = (Container.VolumeMounts container ++ [VolumeMount.mk volumeName true mountPath])%list /\
  Container.Env container'
    = (Container.Env container ++ [EnvVar.mk env mountPath])%list /\
  (exists v, PodSpec.Volumes (Pod.Spec pod') = (PodSpec.Volumes (Pod.Spec pod) ++ [v])%list) /\
  PodSpec.Containers (Pod.Spec pod') = PodSpec.Containers (Pod.Spec pod).
Proof.
  cbn [addConfigMapVolumeToPod mountConfigMapToContainer snd
       Pod.Spec PodSpec.Volumes PodSpec.Containers
       Container.VolumeMounts Container.Env].
  rewrite !length_app. cbn [length].
  repeat split; try lia.
  eexists; reflexivity.
Qed.



(** ** Strings *)

Lemma append_cons (a : ascii) (s t : string) : String a s +:+ t = String a (s +:+ t).
Proof. reflexivity. Qed.

Lemma append_nil_r (s : string) : s +:+ "" = s.
Proof. induction s as [|a s IH]; [reflexivity|]. rewrite append_cons, IH. reflexivity. Qed.

Lemma append_assoc (s t u : string) : (s +:+ t) +:+ u = s +:+ (t +:+ u).
Proof.
  induction s as [|a s IH]; [reflexivity|].
  rewrite !append_cons, IH. reflexivity.
Qed.

Lemma comma_free_append (s t : string) :
  comma_free (s +:+ t) = comma_free s && comma_free t.
Proof.
  induction s as [|a s IH]; [reflexivity|].
  rewrite append_cons. cbn [comma_free]. rewrite IH.
  destruct (Ascii.eqb a ","); reflexivity.
Qed.

Lemma split_commas_comma_free (s : string) :
  comma_free s = true -> split_commas s = [s].
Proof.
  induction s as [|a s IH]; [reflexivity|].
  cbn [comma_free split_commas].
  destruct (Ascii.eqb a ","); [discriminate|].
  intros Hs. rewrite (IH Hs). reflexivity.
Qed.






Lemma registered_lookup (K key value : string) (conf : gmap string string) :
  registered K key value conf !! K = Some (appended (conf !! K) key value).
Proof. apply lookup_insert_eq. Qed.

Lemma registered_lookup_ne (K K' key value : string) (conf : gmap string string) :
  K' <> K -> registered K key value conf !! K' = conf !! K'.
Proof.
  intros Hne. apply lookup_insert_ne. congruence.
Qed.

(** ** The annotation registry *)

Section Annotations.
Context {kube : KubeClient}.


Lemma with_SparkConf_twice (conf conf' : option (gmap string string))
    (app : SparkApplication.t) :
  with_SparkConf conf' (with_SparkConf conf app) = with_SparkConf conf' app.
Proof. reflexivity. Qed.

(** One call on an application whose [SparkConf] is a map. *)
Lemma AddConfigMapAnnotation_run (K key value : string)
    (app : SparkApplication.t) (c : cluster) (conf : gmap string string) :
  SparkApplicationSpec.SparkConf (SparkApplication.Spec app) = Some conf ->
  AddConfigMapAnnotation K key value (World app c)
  = (Returns tt, World (with_SparkConf (Some (registered K key value conf)) app) c).
Proof.
  destruct app as [uid [conf0 scm hcm]]. cbn. intros ->.
  unfold AddConfigMapAnnotation, registered, appended, with_SparkConf, assign_SparkConf.
  unfold mbind, M_bind, get_app, lift_outcome, set_Spec. cbn.
  destruct (conf !! K); reflexivity.
Qed.

(** One call on an application whose [SparkConf] is nil. *)
Lemma AddConfigMapAnnotation_nil (K key value : string)
    (app : SparkApplication.t) (c : cluster) :
  SparkApplicationSpec.SparkConf (SparkApplication.Spec app) = None ->
  AddConfigMapAnnotation K key value (World app c)
  = (Panics NilMapAssignment, World app c).
Proof.
  destruct app as [uid [conf0 scm hcm]]. cbn. intros ->. reflexivity.
Qed.



End Annotations.

Lemma comma_free_annotation_entry (e : string * string) :
  comma_free (annotation_entry e) = comma_free (fst e) && comma_free (snd e).
Proof.
  unfold annotation_entry. rewrite !comma_free_append. reflexivity.
Qed.





(** ** The bundle builder *)

Section Bundle.
Context {hash32 : Hash32} {platform : Platform}.

(** The loop of [buildConfigMapFromConfigDir] when every file is read: the
    hasher has been fed every non-directory file in listing order, and
    [data] has received every such file under its name. *)
Lemma buildConfigMapFromConfigDir_loop_ok (dir : string) (files : list FileInfo.t) :
  forall (hasher : hash_state) (data : gmap string string),
    Forall (readable dir) (regular_files files) ->
    buildConfigMapFromConfigDir_loop dir files hasher data
    = inl (fold_left Write (map (file_content dir) (regular_files files)) hasher,
           fold_left
             (fun data file =>
                <[FileInfo.Name file := string_of_bytes (file_content dir file)]> data)
             (regular_files files) data).
Proof.
  induction files as [|file files IH]; intros hasher data Hread.
  - reflexivity.
  - cbn [buildConfigMapFromConfigDir_loop regular_files List.filter] in *.
    destruct (FileInfo.IsDir file); cbn [negb] in *.
    + apply IH, Hread.
    + apply Forall_cons in Hread as [Hfile Hfiles].
      unfold readable in Hfile. cbn [map fold_left]. unfold file_content at 2 4.
      destruct (ioutil_ReadFile (filepath_Join dir (FileInfo.Name file)))
        as [bytes err].
      cbn in Hfile. subst err. cbn [fst]. apply IH, Hfiles.
Qed.

(** Directory entries do not take part in the loop. *)
Lemma buildConfigMapFromConfigDir_loop_regular (dir : string) (files : list FileInfo.t) :
  forall (hasher : hash_state) (data : gmap string string),
    buildConfigMapFromConfigDir_loop dir files hasher data
    = buildConfigMapFromConfigDir_loop dir (regular_files files) hasher data.
Proof.
  induction files as [|file files IH]; intros hasher data; [reflexivity|].
  cbn [regular_files List.filter].
  destruct (FileInfo.IsDir file) eqn:Hdir; cbn [negb].
  - cbn [buildConfigMapFromConfigDir_loop]. rewrite Hdir. apply IH.
  - cbn [buildConfigMapFromConfigDir_loop]. rewrite Hdir.
    destruct (ioutil_ReadFile _) as [bytes [e|]]; [reflexivity|apply IH].
Qed.

Lemma elem_of_regular_files (file : FileInfo.t) (files : list FileInfo.t) :
  file ∈ regular_files files <-> file ∈ files /\ FileInfo.IsDir file = false.
Proof.
  unfold regular_files. rewrite !list_elem_of_In, filter_In.
  destruct (FileInfo.IsDir file); cbn; intuition congruence.
Qed.

(** Inserting every file of a list under its name: a name of the list maps
    to the content of the file of that name, every other name is as
    before. *)
Lemma lookup_fold_insert_files (dir : string) (files : list FileInfo.t) (k : string) :
  forall data : gmap string string,
    fold_left
      (fun data file =>
         <[FileInfo.Name file := string_of_bytes (file_content dir file)]> data)
      files data !! k
    = if decide (k ∈ FileInfo.Name <$> files)
      then Some (string_of_bytes (fst (ioutil_ReadFile (filepath_Join dir k))))
      else data !! k.
Proof.
  induction files as [|file files IH]; intros data.
  - cbn. case_decide as Hin; [|reflexivity]. inversion Hin.
  - cbn [fold_left]. rewrite IH. rewrite fmap_cons.
    destruct (decide (k ∈ FileInfo.Name <$> files)) as [Hin|Hnotin].
    + rewrite decide_True by (right; exact Hin). reflexivity.
    + destruct (decide (k = FileInfo.Name file)) as [->|Hne].
      * rewrite decide_True by left. rewrite lookup_insert_eq. reflexivity.
      * rewrite decide_False.
        -- apply lookup_insert_ne. congruence.
        -- intros [?|?]%elem_of_cons; contradiction.
Qed.

Lemma lookup_bundle_files (dir : string) (files : list FileInfo.t) (k : string) :
  bundle_files dir files !! k
  = if decide (k ∈ FileInfo.Name <$> regular_files files)
    then Some (string_of_bytes (fst (ioutil_ReadFile (filepath_Join dir k))))
    else None.
Proof.
  unfold bundle_files.
  induction (regular_files files) as [|file l IH].
  - cbn. rewrite lookup_empty. case_decide as Hin; [inversion Hin|reflexivity].
  - cbn [map]. rewrite list_to_map_cons, fmap_cons.
    destruct (decide (k = FileInfo.Name file)) as [->|Hne].
    + rewrite lookup_insert_eq, decide_True by left. reflexivity.
    + rewrite lookup_insert_ne by congruence. rewrite IH.
      destruct (decide (k ∈ FileInfo.Name <$> l)) as [Hin|Hnotin].
      * rewrite decide_True by (right; exact Hin). reflexivity.
      * rewrite decide_False; [reflexivity|].
        intros [?|?]%elem_of_cons; contradiction.
Qed.

Lemma fold_insert_files_bundle (dir : string) (files : list FileInfo.t) :
  fold_left
    (fun data file =>
       <[FileInfo.Name file := string_of_bytes (file_content dir file)]> data)
    (regular_files files) ∅
  = bundle_files dir files.
Proof.
  apply map_eq. intros k.
  rewrite lookup_fold_insert_files, lookup_bundle_files, lookup_empty.
  reflexivity.
Qed.

(** The whole function when the directory is listed and every file is read. *)
Lemma buildConfigMapFromConfigDir_ok (dir namePrefix namespace appUID : string)
    (files : list FileInfo.t) :
  ioutil_ReadDir dir = (files, None) ->
  Forall (readable dir) (regular_files files) ->
  buildConfigMapFromConfigDir dir namePrefix namespace appUID
  = (Some (ConfigMap.mk (bundle_name dir namePrefix namespace appUID files)
                        namespace
                        (bundle_files dir files)),
     None).
Proof.
  intros Hdir Hread. unfold buildConfigMapFromConfigDir. rewrite Hdir.
  rewrite buildConfigMapFromConfigDir_loop_ok by exact Hread.
  rewrite fold_insert_files_bundle.
  unfold bundle_name, bundle_hash. rewrite fold_left_app. reflexivity.
Qed.

(** An error never comes with a ConfigMap, nor a ConfigMap with an error. *)
Lemma buildConfigMapFromConfigDir_nil_or_error (dir namePrefix namespace appUID : string) :
  (exists e, buildConfigMapFromConfigDir dir namePrefix namespace appUID = (None, Some e)) \/
  (exists cm, buildConfigMapFromConfigDir dir namePrefix namespace appUID = (Some cm, None)).
Proof.
  unfold buildConfigMapFromConfigDir.
  destruct (ioutil_ReadDir dir) as [files [e|]]; [left; eauto|].
  destruct (buildConfigMapFromConfigDir_loop dir files NewHash32 ∅) as [[hasher data]|e];
    [right|left]; eauto.
Qed.

End Bundle.

Section BundleProperties.
Context {hash32 : Hash32} {platform : Platform}.

(** C3. Content fidelity: when the directory is listed and every
    non-directory entry is read, the data map of the returned ConfigMap is
    exactly [{filename: content}] over the non-directory entries of the
    listing: every such entry is a key that maps to the content of its file,
    every key is the name of such an entry, and the entries that are
    directories take no part in the loop, neither in the map nor in the
    hash. *)
Theorem content_fidelity (dir namePrefix namespace appUID : string)
    (files : list FileInfo.t) :
  ioutil_ReadDir dir = (files, None) ->
  Forall (readable dir) (regular_files files) ->
  exists cm : ConfigMap.t,
    buildConfigMapFromConfigDir dir namePrefix namespace appUID = (Some cm, None) /\
    ConfigMap.Data cm = bundle_files dir files /\
    (forall file : FileInfo.t,
        file ∈ files -> FileInfo.IsDir file = false ->
        ConfigMap.Data cm !! FileInfo.Name file
        = Some (string_of_bytes (file_content dir file))) /\
    (forall (k v : string),
        ConfigMap.Data cm !! k = Some v ->
        exists file : FileInfo.t,
          file ∈ files /\ FileInfo.IsDir file = false /\
          FileInfo.Name file = k /\ v = string_of_bytes (file_content dir file)) /\
    (forall (hasher : hash_state) (data : gmap string string),
        buildConfigMapFromConfigDir_loop dir files hasher data
        = buildConfigMapFromConfigDir_loop dir (regular_files files) hasher data).
Proof.
  intros Hdir Hread. eexists. split.
  { apply buildConfigMapFromConfigDir_ok; eassumption. }
  cbn [ConfigMap.Data]. split; [reflexivity|]. split; [|split].
  - intros file Hin Hreg. rewrite lookup_bundle_files.
    rewrite decide_True; [reflexivity|].
    apply list_elem_of_fmap. exists file. split; [reflexivity|].
    apply elem_of_regular_files. split; assumption.
  - intros k v. rewrite lookup_bundle_files.
    case_decide as Hin; [|discriminate].
    intros [= <-]. apply list_elem_of_fmap in Hin as (file & -> & Hfile).
    apply elem_of_regular_files in Hfile as [Hin Hreg].
    exists file. repeat split; assumption.
  - apply buildConfigMapFromConfigDir_loop_regular.
Qed.

(** C4. The name of the bundle is [<prefix>-<hash>], the hash printed in
    decimal, where the hash is the 32-bit sum of an accumulator that was fed
    the bytes of every non-directory file in listing order and then the
    directory path, the namespace and the owner UID; when the listing has
    no non-directory entry the name comes from these three alone. *)
Theorem bundle_name_formula (dir namePrefix namespace appUID : string)
    (files : list FileInfo.t) :
  ioutil_ReadDir dir = (files, None) ->
  Forall (readable dir) (regular_files files) ->
  exists cm : ConfigMap.t,
    buildConfigMapFromConfigDir dir namePrefix namespace appUID = (Some cm, None) /\
    ConfigMap.Name cm
    = namePrefix +:+ "-" +:+
      Sprintf_d
        (Sum32
           (fold_left Write
              (map (file_content dir) (regular_files files)
                 ++ [bytes_of_string dir; bytes_of_string namespace;
                     bytes_of_string appUID])%list
              NewHash32)) /\
    (bundle_hash dir namespace appUID files < 2 ^ 32)%N /\
    (regular_files files = [] ->
     ConfigMap.Name cm
     = namePrefix +:+ "-" +:+
       Sprintf_d
         (Sum32 (Write (Write (Write NewHash32 (bytes_of_string dir))
                              (bytes_of_string namespace))
                       (bytes_of_string appUID)))).
Proof.
  intros Hdir Hread. eexists. split.
  { apply buildConfigMapFromConfigDir_ok; eassumption. }
  cbn [ConfigMap.Name]. split; [reflexivity|]. split; [apply Sum32_uint32|].
  intros Hnone. unfold bundle_name, bundle_hash. rewrite Hnone. reflexivity.
Qed.

End BundleProperties.

Lemma buildConfigMapFromConfigDir_loop_same (hash32 : Hash32) (p1 p2 : Platform)
    (dir : string) (files1 files2 : list FileInfo.t) :
  Forall2 (same_entry p1 p2 dir) files1 files2 ->
  forall (hasher : hash_state) (data : gmap string string),
    @buildConfigMapFromConfigDir_loop hash32 p1 dir files1 hasher data
    = @buildConfigMapFromConfigDir_loop hash32 p2 dir files2 hasher data.
Proof.
  induction 1 as [|f1 f2 files1 files2 (Hname & Hisdir & Hread) _ IH];
    intros hasher data; [reflexivity|].
  cbn [buildConfigMapFromConfigDir_loop]. rewrite <- Hisdir.
  destruct (FileInfo.IsDir f1); [apply IH|].
  rewrite <- (Hread eq_refl), <- Hname.
  destruct (ioutil_ReadFile _) as [bytes [e|]]; [reflexivity|apply IH].
Qed.

(** C1. Determinism: the result of [buildConfigMapFromConfigDir] is a
    function of the directory's listing (names, and which entries are
    directories), of the bytes of its files, and of the prefix, the
    namespace and the owner UID.  Two calls that see the same directory
    return the same result, so ConfigMaps with the same name and the same
    data map; sizes, modification times and the rest of the file system
    make no difference. *)
Theorem buildConfigMapFromConfigDir_deterministic (hash32 : Hash32) (p1 p2 : Platform)
    (dir namePrefix namespace appUID : string) :
  same_directory p1 p2 dir ->
  @buildConfigMapFromConfigDir hash32 p1 dir namePrefix namespace appUID
  = @buildConfigMapFromConfigDir hash32 p2 dir namePrefix namespace appUID /\
  (forall cm1 cm2 : ConfigMap.t,
      fst (@buildConfigMapFromConfigDir hash32 p1 dir namePrefix namespace appUID) = Some cm1 ->
      fst (@buildConfigMapFromConfigDir hash32 p2 dir namePrefix namespace appUID) = Some cm2 ->
      ConfigMap.Name cm1 = ConfigMap.Name cm2 /\
      ConfigMap.Data cm1 = ConfigMap.Data cm2).
Proof.
  intros [Herr Hfiles].
  assert (@buildConfigMapFromConfigDir hash32 p1 dir namePrefix namespace appUID
          = @buildConfigMapFromConfigDir hash32 p2 dir namePrefix namespace appUID)
    as Heq.
  { unfold buildConfigMapFromConfigDir.
    destruct (@ioutil_ReadDir p1 dir) as [files1 err1].
    destruct (@ioutil_ReadDir p2 dir) as [files2 err2].
    cbn [fst snd] in *. subst err2.
    destruct err1 as [e|]; [reflexivity|].
    rewrite (buildConfigMapFromConfigDir_loop_same hash32 p1 p2 dir files1 files2
               (Hfiles eq_refl)).
    reflexivity. }
  split; [exact Heq|].
  intros cm1 cm2 H1 H2. rewrite Heq, H2 in H1.
  injection H1 as <-. split; reflexivity.
Qed.

Lemma content_fidelity_witness :
  @ioutil_ReadDir (memfs.platform Fixture.fs) "/etc/spark/conf"
  = (Fixture.conf_dir, None) /\
  Forall (@readable (memfs.platform Fixture.fs) "/etc/spark/conf")
         (regular_files Fixture.conf_dir) /\
  exists cm : ConfigMap.t,
    @buildConfigMapFromConfigDir fnv.hash32 (memfs.platform Fixture.fs)
      "/etc/spark/conf" SparkConfigMapNamePrefix "ns1" "uid-123"
    = (Some cm, None) /\
    ConfigMap.Data cm
    = <["spark-defaults.conf" := "a=1"]> (<["log4j.properties" := "b=2"]> ∅) /\
    ConfigMap.Data cm !! "metrics" = None.
Proof.
  split; [reflexivity|].
  split; [repeat (constructor; [reflexivity|]); constructor|].
  destruct (@content_fidelity fnv.hash32 (memfs.platform Fixture.fs)
              "/etc/spark/conf" SparkConfigMapNamePrefix "ns1" "uid-123"
              Fixture.conf_dir eq_refl)
    as (cm & Hrun & Hdata & _).
  { repeat (constructor; [reflexivity|]); constructor. }
  exists cm. split; [exact Hrun|]. rewrite Hdata.
  split; vm_compute; reflexivity.
Defined.

Lemma bundle_name_formula_witness :
  @ioutil_ReadDir (memfs.platform Fixture.fs) "/etc/spark/conf"
  = (Fixture.conf_dir, None) /\
  Forall (@readable (memfs.platform Fixture.fs) "/etc/spark/conf")
         (regular_files Fixture.conf_dir) /\
  exists cm : ConfigMap.t,
    @buildConfigMapFromConfigDir fnv.hash32 (memfs.platform Fixture.fs)
      "/etc/spark/conf" SparkConfigMapNamePrefix "ns1" "uid-123"
    = (Some cm, None) /\
    ConfigMap.Name cm = "spark-config-map-2052736648".
Proof.
  split; [reflexivity|].
  split; [repeat (constructor; [reflexivity|]); constructor|].
  destruct (@bundle_name_formula fnv.hash32 (memfs.platform Fixture.fs)
              "/etc/spark/conf" SparkConfigMapNamePrefix "ns1" "uid-123"
              Fixture.conf_dir eq_refl)
    as (cm & Hrun & Hname & _).
  { repeat (constructor; [reflexivity|]); constructor. }
  exists cm. split; [exact Hrun|]. rewrite Hname.
  vm_compute; reflexivity.
Defined.

(** The empty directory of the fixture: the name comes from the path, the
    namespace and the owner alone. *)
Example empty_directory_name :
  exists cm : ConfigMap.t,
    @buildConfigMapFromConfigDir fnv.hash32 (memfs.platform Fixture.fs)
      "/etc/empty" SparkConfigMapNamePrefix "ns1" "uid-123"
    = (Some cm, None) /\
    ConfigMap.Data cm = ∅ /\
    ConfigMap.Name cm = "spark-config-map-2747119119" /\
    ConfigMap.Name cm
    = "spark-config-map-" +:+
      Sprintf_d (fnv.sum32 (fnv.write fnv.offset32
                              (bytes_of_string "/etc/emptyns1uid-123"))).
Proof. eexists. repeat split; vm_compute; reflexivity. Qed.

Lemma buildConfigMapFromConfigDir_deterministic_witness :
  same_directory (memfs.platform Fixture.fs) (memfs.platform Fixture.fs') "/etc/spark/conf" /\
  @buildConfigMapFromConfigDir fnv.hash32 (memfs.platform Fixture.fs)
    "/etc/spark/conf" SparkConfigMapNamePrefix "ns1" "uid-123"
  = @buildConfigMapFromConfigDir fnv.hash32 (memfs.platform Fixture.fs')
      "/etc/spark/conf" SparkConfigMapNamePrefix "ns1" "uid-123".
Proof.
  assert (same_directory (memfs.platform Fixture.fs) (memfs.platform Fixture.fs')
            "/etc/spark/conf") as Hsame.
  { split; [reflexivity|]. intros _.
    repeat (constructor; [repeat split; intros; reflexivity|]); constructor. }
  split; [exact Hsame|].
  apply (buildConfigMapFromConfigDir_deterministic fnv.hash32 _ _
           "/etc/spark/conf" SparkConfigMapNamePrefix "ns1" "uid-123" Hsame).
Defined.

(** ** The provisioner and the two pipelines *)

Section Provisioning.
Context {hash32 : Hash32} {platform : Platform} {kube : KubeClient}.

(** The error branch after a failed build. *)
Lemma createConfigMap_build_error (dir namespace namePrefix : string)
    (app : SparkApplication.t) (c : cluster) (e : error) :
  snd (buildConfigMapFromConfigDir dir namePrefix namespace (SparkApplication.UID app))
  = Some e ->
  createConfigMap dir namespace namePrefix (World app c)
  = (Panics NilPointerDereference, World app c).
Proof.
  intros Herr. unfold createConfigMap, mbind, M_bind, get_app. cbn [the_app].
  destruct (buildConfigMapFromConfigDir_nil_or_error dir namePrefix namespace
              (SparkApplication.UID app)) as [[e' Hrun]|[cm Hrun]];
    rewrite Hrun in *; [reflexivity|discriminate].
Qed.

(** The three ways the create request can come back. *)
Lemma createConfigMap_created (dir namespace namePrefix : string)
    (app : SparkApplication.t) (c c' : cluster) (cm cm' : ConfigMap.t) :
  buildConfigMapFromConfigDir dir namePrefix namespace (SparkApplication.UID app)
  = (Some cm, None) ->
  ConfigMaps_Create namespace (Some cm) c = ((Some cm', None), c') ->
  createConfigMap dir namespace namePrefix (World app c)
  = (Returns (ConfigMap.Name cm', None), World app c').
Proof.
  intros Hbuild Hcreate.
  unfold createConfigMap, mbind, M_bind, get_app, Create. cbn [the_app the_cluster].
  rewrite Hbuild. cbn [the_app the_cluster]. rewrite Hcreate. reflexivity.
Qed.

Lemma createConfigMap_create_error (dir namespace namePrefix : string)
    (app : SparkApplication.t) (c c' : cluster) (cm cm' : ConfigMap.t) (e : error) :
  buildConfigMapFromConfigDir dir namePrefix namespace (SparkApplication.UID app)
  = (Some cm, None) ->
  ConfigMaps_Create namespace (Some cm) c = ((Some cm', Some e), c') ->
  createConfigMap dir namespace namePrefix (World app c)
  = (Returns (ConfigMap.Name cm', Some e), World app c').
Proof.
  intros Hbuild Hcreate.
  unfold createConfigMap, mbind, M_bind, get_app, Create. cbn [the_app the_cluster].
  rewrite Hbuild. cbn [the_app the_cluster]. rewrite Hcreate. reflexivity.
Qed.

Lemma createConfigMap_create_nil (dir namespace namePrefix : string)
    (app : SparkApplication.t) (c c' : cluster) (cm : ConfigMap.t) (err : option error) :
  buildConfigMapFromConfigDir dir namePrefix namespace (SparkApplication.UID app)
  = (Some cm, None) ->
  ConfigMaps_Create namespace (Some cm) c = ((None, err), c') ->
  createConfigMap dir namespace namePrefix (World app c)
  = (Panics NilPointerDereference, World app c').
Proof.
  intros Hbuild Hcreate.
  unfold createConfigMap, mbind, M_bind, get_app, Create. cbn [the_app the_cluster].
  rewrite Hbuild. cbn [the_app the_cluster]. rewrite Hcreate. destruct err; reflexivity.
Qed.

(** A failed create request whose pointer is not nil: the error reaches the
    caller of [CreateSparkConfigMap] as it is. *)
Lemma CreateSparkConfigMap_create_error (dir namespace : string)
    (app : SparkApplication.t) (c c' : cluster) (cm cm' : ConfigMap.t) (e : error) :
  buildConfigMapFromConfigDir dir SparkConfigMapNamePrefix namespace
    (SparkApplication.UID app) = (Some cm, None) ->
  ConfigMaps_Create namespace (Some cm) c = ((Some cm', Some e), c') ->
  CreateSparkConfigMap dir namespace (World app c) = (Returns (Some e), World app c').
Proof.
  intros Hbuild Hcreate. unfold CreateSparkConfigMap, mbind, M_bind.
  rewrite (createConfigMap_create_error dir namespace SparkConfigMapNamePrefix
             app c c' cm cm' e Hbuild Hcreate).
  reflexivity.
Qed.

(** [createConfigMap] never touches the application. *)
Lemma createConfigMap_keeps_app (dir namespace namePrefix : string) (w w' : world)
    (o : outcome (string * option error)) :
  createConfigMap dir namespace namePrefix w = (o, w') -> the_app w' = the_app w.
Proof.
  unfold createConfigMap, mbind, M_bind, get_app, Create, deref, mret, M_ret.
  destruct (buildConfigMapFromConfigDir _ _ _ _) as [[cm|] [e|]];
    try (intros [= _ <-]; reflexivity).
  - destruct (ConfigMaps_Create _ _ _) as [[[cm'|] [e|]] c'];
      intros [= _ <-]; reflexivity.
  - destruct (ConfigMaps_Create _ _ _) as [[[cm'|] [e|]] c'];
      intros [= _ <-]; reflexivity.
Qed.

(** Whatever [CreateSparkConfigMap] does other than return a nil error, it
    leaves the application as it was: no annotation, no ConfigMap name. *)
Lemma CreateSparkConfigMap_failure_keeps_app (dir namespace : string) (w w' : world)
    (o : outcome (option error)) :
  CreateSparkConfigMap dir namespace w = (o, w') ->
  o <> Returns None ->
  the_app w' = the_app w.
Proof.
  unfold CreateSparkConfigMap. unfold mbind at 1. unfold M_bind at 1.
  destruct (createConfigMap dir namespace SparkConfigMapNamePrefix w)
    as [[[name [e|]]|p] w1] eqn:Hcreate;
    apply createConfigMap_keeps_app in Hcreate.
  - intros [= _ <-] _. exact Hcreate.
  - destruct w1 as [app1 c1]. cbn [the_app] in Hcreate. subst app1.
    intros Hrun Ho. unfold mbind, M_bind in Hrun.
    destruct (SparkApplicationSpec.SparkConf (SparkApplication.Spec (the_app w)))
      as [conf|] eqn:Hc.
    + rewrite (AddConfigMapAnnotation_run _ _ _ _ _ _ Hc) in Hrun.
      erewrite AddConfigMapAnnotation_run in Hrun by reflexivity.
      cbn in Hrun. injection Hrun as <- _. contradiction.
    + rewrite (AddConfigMapAnnotation_nil _ _ _ _ _ Hc) in Hrun.
      injection Hrun as _ <-. reflexivity.
  - intros [= _ <-] _. exact Hcreate.
Qed.

End Provisioning.

Section ProvisioningProperties.
Context {hash32 : Hash32} {platform : Platform} {kube : KubeClient}.

(** C9. Whenever [buildConfigMapFromConfigDir] returns a non-nil error it
    returns a nil ConfigMap pointer, and [createConfigMap], which reads
    [configMap.Name] in its error branch, then panics with a nil-pointer
    dereference instead of returning the error; the application and the
    cluster are as before.  So [createConfigMap] returns only when the
    build has succeeded. *)
Theorem createConfigMap_error_branch_panics (dir namespace namePrefix : string)
    (app : SparkApplication.t) (c : cluster) :
  (forall e : error,
      snd (buildConfigMapFromConfigDir dir namePrefix namespace (SparkApplication.UID app))
      = Some e ->
      fst (buildConfigMapFromConfigDir dir namePrefix namespace (SparkApplication.UID app))
      = None /\
      createConfigMap dir namespace namePrefix (World app c)
      = (Panics NilPointerDereference, World app c)) /\
  (forall (r : string * option error) (w' : world),
      createConfigMap dir namespace namePrefix (World app c) = (Returns r, w') ->
      exists cm : ConfigMap.t,
        buildConfigMapFromConfigDir dir namePrefix namespace (SparkApplication.UID app)
        = (Some cm, None)).
Proof.
  split.
  - intros e Herr. split; [|eapply createConfigMap_build_error, Herr].
    destruct (buildConfigMapFromConfigDir_nil_or_error dir namePrefix namespace
                (SparkApplication.UID app)) as [[e' Hrun]|[cm Hrun]];
      rewrite Hrun in *; [reflexivity|discriminate].
  - intros r w' Hrun.
    destruct (buildConfigMapFromConfigDir_nil_or_error dir namePrefix namespace
                (SparkApplication.UID app)) as [[e Hbuild]|[cm Hbuild]];
      [|exists cm; exact Hbuild].
    rewrite (createConfigMap_build_error dir namespace namePrefix app c e) in Hrun
      by (rewrite Hbuild; reflexivity).
    discriminate Hrun.
Qed.

(** C6. On success [CreateSparkConfigMap] returns a nil error, has
    registered the name of the created ConfigMap under the subkey
    [apache-spark-on-k8s/spark-config-map] of both
    [spark.kubernetes.driver.annotations] and
    [spark.kubernetes.executor.annotations], and has set
    [app.Spec.SparkConfigMap] to that name; [CreateHadoopConfigMap] does the
    same with the subkey [apache-spark-on-k8s/hadoop-config-map] and
    [app.Spec.HadoopConfigMap].  Nothing else of the application changes. *)
Theorem CreateConfigMap_registers_both_roles (dir namespace : string)
    (app : SparkApplication.t) (c c' : cluster)
    (conf : gmap string string) (cm cm' : ConfigMap.t) :
  SparkApplicationSpec.SparkConf (SparkApplication.Spec app) = Some conf ->
  ConfigMaps_Create namespace (Some cm) c = ((Some cm', None), c') ->
  let name := ConfigMap.Name cm' in
  let spec := SparkApplication.Spec app in
  (buildConfigMapFromConfigDir dir "spark-config-map" namespace (SparkApplication.UID app)
   = (Some cm, None) ->
   exists conf' : gmap string string,
     CreateSparkConfigMap dir namespace (World app c)
     = (Returns None,
        World (SparkApplication.mk (SparkApplication.UID app)
                 (SparkApplicationSpec.mk (Some conf') (Some name)
                    (SparkApplicationSpec.HadoopConfigMap spec)))
              c') /\
     conf' !! "spark.kubernetes.driver.annotations"
     = Some (appended (conf !! "spark.kubernetes.driver.annotations")
                      "apache-spark-on-k8s/spark-config-map" name) /\
     conf' !! "spark.kubernetes.executor.annotations"
     = Some (appended (conf !! "spark.kubernetes.executor.annotations")
                      "apache-spark-on-k8s/spark-config-map" name) /\
     (forall K : string,
         K <> "spark.kubernetes.driver.annotations" ->
         K <> "spark.kubernetes.executor.annotations" ->
         conf' !! K = conf !! K)) /\
  (buildConfigMapFromConfigDir dir "hadoop-config-map" namespace (SparkApplication.UID app)
   = (Some cm, None) ->
   exists conf' : gmap string string,
     CreateHadoopConfigMap dir namespace (World app c)
     = (Returns None,
        World (SparkApplication.mk (SparkApplication.UID app)
                 (SparkApplicationSpec.mk (Some conf')
                    (SparkApplicationSpec.SparkConfigMap spec) (Some name)))
              c') /\
     conf' !! "spark.kubernetes.driver.annotations"
     = Some (appended (conf !! "spark.kubernetes.driver.annotations")
                      "apache-spark-on-k8s/hadoop-config-map" name) /\
     conf' !! "spark.kubernetes.executor.annotations"
     = Some (appended (conf !! "spark.kubernetes.executor.annotations")
                      "apache-spark-on-k8s/hadoop-config-map" name) /\
     (forall K : string,
         K <> "spark.kubernetes.driver.annotations" ->
         K <> "spark.kubernetes.executor.annotations" ->
         conf' !! K = conf !! K)).
Proof.
  intros Hconf Hcreate name spec. split; intros Hbuild.
  - exists (registered SparkExecutorAnnotationsKey SparkConfigMapAnnotation name
              (registered SparkDriverAnnotationsKey SparkConfigMapAnnotation name conf)).
    split; [|split; [|split]].
    + unfold CreateSparkConfigMap, mbind, M_bind.
      rewrite (createConfigMap_created dir namespace SparkConfigMapNamePrefix
                 app c c' cm cm' Hbuild Hcreate).
      rewrite (AddConfigMapAnnotation_run _ _ _ _ _ _ Hconf).
      erewrite AddConfigMapAnnotation_run by reflexivity.
      reflexivity.
    + rewrite registered_lookup_ne by discriminate. apply registered_lookup.
    + rewrite registered_lookup.
      rewrite registered_lookup_ne by discriminate. reflexivity.
    + intros K Hd He. rewrite !registered_lookup_ne by assumption. reflexivity.
  - exists (registered SparkExecutorAnnotationsKey HadoopConfigMapAnnotation name
              (registered SparkDriverAnnotationsKey HadoopConfigMapAnnotation name conf)).
    split; [|split; [|split]].
    + unfold CreateHadoopConfigMap, mbind, M_bind.
      rewrite (createConfigMap_created dir namespace HadoopConfigMapNamePrefix
                 app c c' cm cm' Hbuild Hcreate).
      rewrite (AddConfigMapAnnotation_run _ _ _ _ _ _ Hconf).
      erewrite AddConfigMapAnnotation_run by reflexivity.
      reflexivity.
    + rewrite registered_lookup_ne by discriminate. apply registered_lookup.
    + rewrite registered_lookup.
      rewrite registered_lookup_ne by discriminate. reflexivity.
    + intros K Hd He. rewrite !registered_lookup_ne by assumption. reflexivity.
Qed.

End ProvisioningProperties.

(** C10. [AddConfigMapAnnotation] never initializes [app.Spec.SparkConf]:
    on an application whose [SparkConf] is nil every call panics on the
    assignment into the nil map, and so do [CreateSparkConfigMap] and
    [CreateHadoopConfigMap] at their first registration, after the ConfigMap
    has been created; the call returns exactly when the map is not nil. *)
Theorem nil_SparkConf_panics {hash32 : Hash32} {platform : Platform} {kube : KubeClient}
    (dir namespace : string) (app : SparkApplication.t) (c : cluster) :
  (forall K key value : string,
      SparkApplicationSpec.SparkConf (SparkApplication.Spec app) = None <->
      AddConfigMapAnnotation K key value (World app c)
      = (Panics NilMapAssignment, World app c)) /\
  (forall K key value : string,
      SparkApplicationSpec.SparkConf (SparkApplication.Spec app) <> None <->
      fst (AddConfigMapAnnotation K key value (World app c)) = Returns tt) /\
  (SparkApplicationSpec.SparkConf (SparkApplication.Spec app) = None ->
   forall (cm cm' : ConfigMap.t) (c' : cluster),
     ConfigMaps_Create namespace (Some cm) c = ((Some cm', None), c') ->
     (buildConfigMapFromConfigDir dir SparkConfigMapNamePrefix namespace
        (SparkApplication.UID app) = (Some cm, None) ->
      CreateSparkConfigMap dir namespace (World app c)
      = (Panics NilMapAssignment, World app c')) /\
     (buildConfigMapFromConfigDir dir HadoopConfigMapNamePrefix namespace
        (SparkApplication.UID app) = (Some cm, None) ->
      CreateHadoopConfigMap dir namespace (World app c)
      = (Panics NilMapAssignment, World app c'))).
Proof.
  split; [|split].
  - intros K key value. split; [apply AddConfigMapAnnotation_nil|].
    destruct (SparkApplicationSpec.SparkConf (SparkApplication.Spec app))
      as [conf|] eqn:Hconf; [|reflexivity].
    rewrite (AddConfigMapAnnotation_run _ _ _ _ _ _ Hconf). discriminate.
  - intros K key value.
    destruct (SparkApplicationSpec.SparkConf (SparkApplication.Spec app))
      as [conf|] eqn:Hconf.
    + rewrite (AddConfigMapAnnotation_run _ _ _ _ _ _ Hconf). split; [reflexivity|discriminate].
    + rewrite (AddConfigMapAnnotation_nil _ _ _ _ _ Hconf).
      split; [contradiction|discriminate].
  - intros Hnil cm cm' c' Hcreate. split; intros Hbuild.
    + unfold CreateSparkConfigMap, mbind, M_bind.
      rewrite (createConfigMap_created dir namespace SparkConfigMapNamePrefix
                 app c c' cm cm' Hbuild Hcreate).
      rewrite (AddConfigMapAnnotation_nil _ _ _ _ _ Hnil). reflexivity.
    + unfold CreateHadoopConfigMap, mbind, M_bind.
      rewrite (createConfigMap_created dir namespace HadoopConfigMapNamePrefix
                 app c c' cm cm' Hbuild Hcreate).
      rewrite (AddConfigMapAnnotation_nil _ _ _ _ _ Hnil). reflexivity.
Qed.

(** C2 on the code.  The directory [/nope] cannot be listed, and in
    [Fixture.broken_fs] a listed file cannot be read: the build returns the
    error, but neither [CreateSparkConfigMap] nor [CreateHadoopConfigMap]
    returns it; both panic in [createConfigMap].  The same happens when the
    create request fails and the client returns a nil pointer with the
    error.  The application is left as it was. *)
Theorem CreateConfigMap_failure_panics :
  @buildConfigMapFromConfigDir fnv.hash32 (memfs.platform Fixture.fs)
    "/nope" SparkConfigMapNamePrefix "ns1" "uid-123"
  = (None, Some (memfs.ENOENT "/nope")) /\
  @CreateSparkConfigMap fnv.hash32 (memfs.platform Fixture.fs) memkube.client
    "/nope" "ns1" (Fixture.w0 (Some ∅))
  = (Panics NilPointerDereference, Fixture.w0 (Some ∅)) /\
  @CreateHadoopConfigMap fnv.hash32 (memfs.platform Fixture.fs) memkube.client
    "/nope" "ns1" (Fixture.w0 (Some ∅))
  = (Panics NilPointerDereference, Fixture.w0 (Some ∅)) /\
  @buildConfigMapFromConfigDir fnv.hash32 (memfs.platform Fixture.broken_fs)
    "/etc/spark/conf" SparkConfigMapNamePrefix "ns1" "uid-123"
  = (None, Some (memfs.ENOENT "/etc/spark/conf/spark-defaults.conf")) /\
  @CreateSparkConfigMap fnv.hash32 (memfs.platform Fixture.broken_fs) memkube.client
    "/etc/spark/conf" "ns1" (Fixture.w0 (Some ∅))
  = (Panics NilPointerDereference, Fixture.w0 (Some ∅)) /\
  @CreateSparkConfigMap fnv.hash32 (memfs.platform Fixture.fs) memkube.failing_client
    "/etc/spark/conf" "ns1" (Fixture.w1 (Some ∅))
  = (Panics NilPointerDereference, Fixture.w1 (Some ∅)).
Proof. repeat split; vm_compute; reflexivity. Qed.

Lemma createConfigMap_error_branch_panics_witness :
  snd (@buildConfigMapFromConfigDir fnv.hash32 (memfs.platform Fixture.broken_fs)
         "/etc/spark/conf" SparkConfigMapNamePrefix "ns1" "uid-123")
  = Some (memfs.ENOENT "/etc/spark/conf/spark-defaults.conf") /\
  fst (@buildConfigMapFromConfigDir fnv.hash32 (memfs.platform Fixture.broken_fs)
         "/etc/spark/conf" SparkConfigMapNamePrefix "ns1" "uid-123")
  = None /\
  @createConfigMap fnv.hash32 (memfs.platform Fixture.broken_fs) memkube.client
    "/etc/spark/conf" "ns1" SparkConfigMapNamePrefix (Fixture.w0 (Some ∅))
  = (Panics NilPointerDereference, Fixture.w0 (Some ∅)).
Proof.
  split; [vm_compute; reflexivity|].
  destruct (@createConfigMap_error_branch_panics fnv.hash32
              (memfs.platform Fixture.broken_fs) memkube.client
              "/etc/spark/conf" "ns1" SparkConfigMapNamePrefix
              (Fixture.app (Some ∅)) ([] : list ConfigMap.t))
    as [Hpanic _].
  apply (Hpanic (memfs.ENOENT "/etc/spark/conf/spark-defaults.conf")).
  vm_compute; reflexivity.
Defined.

Lemma CreateConfigMap_registers_both_roles_witness :
  exists (cm : ConfigMap.t) (conf' : gmap string string),
    @buildConfigMapFromConfigDir fnv.hash32 (memfs.platform Fixture.fs)
      "/etc/spark/conf" "spark-config-map" "ns1" "uid-123" = (Some cm, None) /\
    memkube.Create "ns1" (Some cm) [] = ((Some cm, None), [cm]) /\
    @CreateSparkConfigMap fnv.hash32 (memfs.platform Fixture.fs) memkube.client
      "/etc/spark/conf" "ns1" (Fixture.w0 (Some ∅))
    = (Returns None,
       @World memkube.client
         (SparkApplication.mk "uid-123"
            (SparkApplicationSpec.mk (Some conf')
               (Some "spark-config-map-2052736648") None))
         [cm]) /\
    conf' !! "spark.kubernetes.driver.annotations"
    = Some "apache-spark-on-k8s/spark-config-map=spark-config-map-2052736648" /\
    conf' !! "spark.kubernetes.executor.annotations"
    = Some "apache-spark-on-k8s/spark-config-map=spark-config-map-2052736648".
Proof.
  pose (cm := ConfigMap.mk "spark-config-map-2052736648" "ns1"
                (<["spark-defaults.conf" := "a=1"]> (<["log4j.properties" := "b=2"]> ∅))).
  assert (@buildConfigMapFromConfigDir fnv.hash32 (memfs.platform Fixture.fs)
            "/etc/spark/conf" "spark-config-map" "ns1" "uid-123" = (Some cm, None))
    as Hbuild by (vm_compute; reflexivity).
  assert (memkube.Create "ns1" (Some cm) [] = ((Some cm, None), [cm]))
    as Hcreate by (vm_compute; reflexivity).
  destruct (@CreateConfigMap_registers_both_roles fnv.hash32
              (memfs.platform Fixture.fs) memkube.client
              "/etc/spark/conf" "ns1" (Fixture.app (Some ∅))
              ([] : list ConfigMap.t) [cm] ∅ cm cm eq_refl Hcreate)
    as [Hspark _].
  destruct (Hspark Hbuild) as (conf' & Hrun & Hdriver & Hexecutor & _).
  exists cm, conf'.
  split; [exact Hbuild|]. split; [exact Hcreate|]. split; [exact Hrun|].
  split; [exact Hdriver | exact Hexecutor].
Defined.

Lemma nil_SparkConf_panics_witness :
  SparkConf_of (Fixture.w0 None) = None /\
  exists cm : ConfigMap.t,
    @buildConfigMapFromConfigDir fnv.hash32 (memfs.platform Fixture.fs)
      "/etc/spark/conf" SparkConfigMapNamePrefix "ns1" "uid-123" = (Some cm, None) /\
    @CreateSparkConfigMap fnv.hash32 (memfs.platform Fixture.fs) memkube.client
      "/etc/spark/conf" "ns1" (Fixture.w0 None)
    = (Panics NilMapAssignment, @World memkube.client (Fixture.app None) [cm]).
Proof.
  split; [reflexivity|].
  pose (cm := ConfigMap.mk "spark-config-map-2052736648" "ns1"
                (<["spark-defaults.conf" := "a=1"]> (<["log4j.properties" := "b=2"]> ∅))).
  assert (@buildConfigMapFromConfigDir fnv.hash32 (memfs.platform Fixture.fs)
            "/etc/spark/conf" SparkConfigMapNamePrefix "ns1" "uid-123" = (Some cm, None))
    as Hbuild by (vm_compute; reflexivity).
  exists cm. split; [exact Hbuild|].
  destruct (@nil_SparkConf_panics fnv.hash32 (memfs.platform Fixture.fs) memkube.client
              "/etc/spark/conf" "ns1" (Fixture.app None) ([] : list ConfigMap.t))
    as (_ & _ & Hcreate).
  destruct (Hcreate eq_refl cm cm [cm]) as [Hspark _]; [vm_compute; reflexivity|].
  apply Hspark, Hbuild.
Defined.

(** * Further properties of the package *)

(** ** Volumes and mounts, composed *)

Lemma volume_names_add (configMapName configMapVolumeName : string) (pod : Pod.t) :
  volume_names (snd (addConfigMapVolumeToPod configMapName configMapVolumeName pod))
  = (volume_names pod ++ [configMapVolumeName])%list.
Proof. unfold volume_names. cbn. rewrite map_app. reflexivity. Qed.

(** X1. Wiring both ConfigMaps into a pod and a container, with the Spark
    and Hadoop entry points in the order the names suggest: the two volume
    names returned are different; the pod gains the two volumes, in that
    order, each referencing its ConfigMap; the container gains two read-only
    mounts that carry the names of these two volumes, and the variables
    [SPARK_CONF_DIR] and [HADOOP_CONF_DIR] with the two mount paths.  When
    the volume names of the pod were distinct and did not include the two
    names, they are still distinct afterwards. *)
Theorem spark_and_hadoop_wiring
    (sparkName hadoopName sparkPath hadoopPath : string)
    (pod : Pod.t) (container : Container.t) :
  let r1 := AddSparkConfigMapVolumeToPod sparkName pod in
  let r2 := AddHadoopConfigMapVolumeToPod hadoopName (snd r1) in
  let container' :=
    MountHadoopConfigMapToContainer (fst r2) hadoopPath
      (MountSparkConfigMapToContainer (fst r1) sparkPath container) in
  fst r1 <> fst r2 /\
  volume_names (snd r2) = (volume_names pod ++ [fst r1; fst r2])%list /\
  (exists vs vh : Volume.t,
      PodSpec.Volumes (Pod.Spec (snd r2)) = (PodSpec.Volumes (Pod.Spec pod) ++ [vs; vh])%list /\
      (LocalObjectReference.Name ∘ ConfigMapVolumeSource.LocalObjectReference)
        <$> VolumeSource.ConfigMap (Volume.VolumeSource vs) = Some sparkName /\
      (LocalObjectReference.Name ∘ ConfigMapVolumeSource.LocalObjectReference)
        <$> VolumeSource.ConfigMap (Volume.VolumeSource vh) = Some hadoopName) /\
  Container.VolumeMounts container'
  = (Container.VolumeMounts container
       ++ [VolumeMount.mk (fst r1) true sparkPath;
           VolumeMount.mk (fst r2) true hadoopPath])%list /\
  Container.Env container'
  = (Container.Env container
       ++ [EnvVar.mk "SPARK_CONF_DIR" sparkPath;
           EnvVar.mk "HADOOP_CONF_DIR" hadoopPath])%list /\
  (NoDup (volume_names pod) ->
   fst r1 ∉ volume_names pod -> fst r2 ∉ volume_names pod ->
   NoDup (volume_names (snd r2))).
Proof.
  cbn zeta.
  unfold AddSparkConfigMapVolumeToPod, AddHadoopConfigMapVolumeToPod,
    MountSparkConfigMapToContainer, MountHadoopConfigMapToContainer.
  rewrite !volume_names_add.
  cbn [addConfigMapVolumeToPod mountConfigMapToContainer fst snd Volume.Name
       Pod.Spec PodSpec.Volumes Container.VolumeMounts Container.Env].
  rewrite <- !app_assoc. cbn [app].
  split; [discriminate|]. split; [reflexivity|].
  split; [eexists _, _; repeat split|].
  split; [reflexivity|]. split; [reflexivity|].
  intros Hnodup Hs Hh.
  apply NoDup_app. split; [exact Hnodup|]. split.
  - intros x Hx [->|[->|[]%elem_of_nil]%elem_of_cons]%elem_of_cons; contradiction.
  - apply NoDup_cons. split; [|apply NoDup_singleton].
    intros H%list_elem_of_singleton. discriminate H.
Qed.

Lemma spark_and_hadoop_wiring_witness :
  NoDup (volume_names Fixture.pod) /\
  volume_names
    (snd (AddHadoopConfigMapVolumeToPod "hadoop-config-map-1"
            (snd (AddSparkConfigMapVolumeToPod "spark-config-map-2052736648" Fixture.pod))))
  = ["spark-config-map-volume"; "hadoop-config-map-volume"] /\
  NoDup
    (volume_names
       (snd (AddHadoopConfigMapVolumeToPod "hadoop-config-map-1"
               (snd (AddSparkConfigMapVolumeToPod "spark-config-map-2052736648"
                       Fixture.pod))))).
Proof.
  destruct (spark_and_hadoop_wiring "spark-config-map-2052736648" "hadoop-config-map-1"
              DefaultSparkConfDir DefaultHadoopConfDir Fixture.pod Fixture.container)
    as (_ & Hnames & _ & _ & _ & Hnodup).
  split; [apply NoDup_nil_2|]. split; [exact Hnames|].
  apply Hnodup; [apply NoDup_nil_2 | apply not_elem_of_nil | apply not_elem_of_nil].
Defined.

Lemma volumes_named_add (configMapName configMapVolumeName name : string) (pod : Pod.t) :
  volumes_named name (snd (addConfigMapVolumeToPod configMapName configMapVolumeName pod))
  = volumes_named name pod + (if String.eqb configMapVolumeName name then 1 else 0).
Proof.
  unfold volumes_named. cbn [addConfigMapVolumeToPod snd Pod.Spec PodSpec.Volumes].
  rewrite List.filter_app, length_app. cbn [List.filter Volume.Name].
  destruct (String.eqb configMapVolumeName name); reflexivity.
Qed.

(** X2. [addConfigMapVolumeToPod] makes no check for an existing volume:
    every call adds one more volume of the given name, whatever the pod
    already holds, and leaves the number of volumes of every other name as
    it was; so after two calls with one volume name the names of the pod's
    volumes are no longer distinct. *)
Theorem addConfigMapVolumeToPod_no_existence_check
    (configMapName configMapName' configMapVolumeName : string) (pod : Pod.t) :
  let pod1 := snd (addConfigMapVolumeToPod configMapName configMapVolumeName pod) in
  let pod2 := snd (addConfigMapVolumeToPod configMapName' configMapVolumeName pod1) in
  volumes_named configMapVolumeName pod1 = S (volumes_named configMapVolumeName pod) /\
  volumes_named configMapVolumeName pod2 = S (S (volumes_named configMapVolumeName pod)) /\
  (forall other : string,
      other <> configMapVolumeName ->
      volumes_named other pod2 = volumes_named other pod) /\
  ~ NoDup (volume_names pod2).
Proof.
  cbn zeta. rewrite !volumes_named_add, String.eqb_refl.
  split; [lia|]. split; [lia|]. split.
  - intros other Hother. rewrite !volumes_named_add.
    destruct (String.eqb_spec configMapVolumeName other); [congruence|lia].
  - rewrite !volume_names_add, <- app_assoc. cbn [app].
    intros [_ [_ Hdup]]%NoDup_app.
    apply NoDup_cons in Hdup as [Hnotin _]. apply Hnotin. left.
Qed.

(** ** The bundle builder: failures, names and sizes *)

Section BundleFailures.
Context {hash32 : Hash32} {platform : Platform}.

(** The loop over a listing in two parts. *)
Lemma buildConfigMapFromConfigDir_loop_app (dir : string) (pre post : list FileInfo.t) :
  forall (hasher : hash_state) (data : gmap string string),
    buildConfigMapFromConfigDir_loop dir (pre ++ post) hasher data
    = match buildConfigMapFromConfigDir_loop dir pre hasher data with
      | inl (hasher', data') => buildConfigMapFromConfigDir_loop dir post hasher' data'
      | inr e => inr e
      end.
Proof.
  induction pre as [|file pre IH]; intros hasher data; [reflexivity|].
  cbn [app buildConfigMapFromConfigDir_loop].
  destruct (FileInfo.IsDir file); [apply IH|].
  destruct (ioutil_ReadFile _) as [bytes [e|]]; [reflexivity|apply IH].
Qed.

(** A loop that runs to its end has read every non-directory entry. *)
Lemma buildConfigMapFromConfigDir_loop_inl (dir : string) (files : list FileInfo.t) :
  forall (hasher : hash_state) (data : gmap string string)
         (r : hash_state * gmap string string),
    buildConfigMapFromConfigDir_loop dir files hasher data = inl r ->
    Forall (readable dir) (regular_files files).
Proof.
  induction files as [|file files IH]; intros hasher data r Hrun; [constructor|].
  cbn [buildConfigMapFromConfigDir_loop regular_files List.filter] in *.
  destruct (FileInfo.IsDir file); cbn [negb]; [eapply IH, Hrun|].
  destruct (ioutil_ReadFile (filepath_Join dir (FileInfo.Name file)))
    as [bytes [e|]] eqn:Hread; [discriminate|].
  constructor; [unfold readable; rewrite Hread; reflexivity|eapply IH, Hrun].
Qed.

(** X3. The build stops at the first non-directory entry that cannot be
    read: when every such entry before it is read, the build returns no
    ConfigMap and exactly the error of that read, whatever the entries after
    it are. *)
Theorem buildConfigMapFromConfigDir_first_unreadable
    (dir namePrefix namespace appUID : string)
    (pre post : list FileInfo.t) (file : FileInfo.t) (bytes : list byte) (e : error) :
  ioutil_ReadDir dir = ((pre ++ file :: post)%list, None) ->
  Forall (readable dir) (regular_files pre) ->
  FileInfo.IsDir file = false ->
  ioutil_ReadFile (filepath_Join dir (FileInfo.Name file)) = (bytes, Some e) ->
  buildConfigMapFromConfigDir dir namePrefix namespace appUID = (None, Some e).
Proof.
  intros Hdir Hpre Hreg Hread. unfold buildConfigMapFromConfigDir. rewrite Hdir.
  rewrite buildConfigMapFromConfigDir_loop_app.
  rewrite buildConfigMapFromConfigDir_loop_ok by exact Hpre.
  cbn [buildConfigMapFromConfigDir_loop]. rewrite Hreg, Hread. reflexivity.
Qed.

(** A ConfigMap that the build returns is the one of the specification's
    terms, over the listing of the directory. *)
Lemma buildConfigMapFromConfigDir_Some (dir namePrefix namespace appUID : string)
    (cm : ConfigMap.t) :
  fst (buildConfigMapFromConfigDir dir namePrefix namespace appUID) = Some cm ->
  snd (ioutil_ReadDir dir) = None /\
  Forall (readable dir) (regular_files (fst (ioutil_ReadDir dir))) /\
  cm = ConfigMap.mk
         (bundle_name dir namePrefix namespace appUID (fst (ioutil_ReadDir dir)))
         namespace
         (bundle_files dir (fst (ioutil_ReadDir dir))).
Proof.
  unfold buildConfigMapFromConfigDir.
  destruct (ioutil_ReadDir dir) as [files [e|]] eqn:Hdir; cbn [fst snd]; [discriminate|].
  destruct (buildConfigMapFromConfigDir_loop dir files NewHash32 ∅)
    as [[hasher data]|e] eqn:Hloop; [|discriminate].
  pose proof (buildConfigMapFromConfigDir_loop_inl _ _ _ _ _ Hloop) as Hread.
  rewrite buildConfigMapFromConfigDir_loop_ok in Hloop by exact Hread.
  injection Hloop as <- <-. rewrite fold_insert_files_bundle.
  intros [= <-]. split; [reflexivity|]. split; [exact Hread|].
  unfold bundle_name, bundle_hash. rewrite fold_left_app. reflexivity.
Qed.

(** X4. The build returns a ConfigMap exactly when the directory is listed
    and every non-directory entry of the listing is read; a ConfigMap that
    is returned comes with a nil error and is in the given namespace. *)
Theorem buildConfigMapFromConfigDir_succeeds_iff
    (dir namePrefix namespace appUID : string) :
  ((exists cm : ConfigMap.t,
       buildConfigMapFromConfigDir dir namePrefix namespace appUID = (Some cm, None))
   <->
   snd (ioutil_ReadDir dir) = None /\
   Forall (readable dir) (regular_files (fst (ioutil_ReadDir dir)))) /\
  (forall cm : ConfigMap.t,
      fst (buildConfigMapFromConfigDir dir namePrefix namespace appUID) = Some cm ->
      snd (buildConfigMapFromConfigDir dir namePrefix namespace appUID) = None /\
      ConfigMap.Namespace cm = namespace).
Proof.
  split; [split|].
  - intros [cm Hrun].
    destruct (buildConfigMapFromConfigDir_Some dir namePrefix namespace appUID cm)
      as (Herr & Hread & _); [rewrite Hrun; reflexivity|].
    split; assumption.
  - intros [Herr Hread].
    destruct (ioutil_ReadDir dir) as [files err] eqn:Hdir. cbn [fst snd] in *. subst err.
    eexists. apply buildConfigMapFromConfigDir_ok; eassumption.
  - intros cm Hcm.
    destruct (buildConfigMapFromConfigDir_Some dir namePrefix namespace appUID cm Hcm)
      as (_ & _ & ->).
    split; [|reflexivity].
    destruct (buildConfigMapFromConfigDir_nil_or_error dir namePrefix namespace appUID)
      as [[e Hrun]|[cm' Hrun]]; rewrite Hrun in *; [discriminate|reflexivity].
Qed.

End BundleFailures.

Lemma buildConfigMapFromConfigDir_first_unreadable_witness :
  @buildConfigMapFromConfigDir fnv.hash32 (memfs.platform Fixture.broken_fs)
    "/etc/spark/conf" SparkConfigMapNamePrefix "ns1" "uid-123"
  = (None, Some (memfs.ENOENT "/etc/spark/conf/spark-defaults.conf")).
Proof.
  apply (@buildConfigMapFromConfigDir_first_unreadable fnv.hash32
           (memfs.platform Fixture.broken_fs)
           "/etc/spark/conf" SparkConfigMapNamePrefix "ns1" "uid-123"
           [FileInfo.mk "log4j.properties" 3 1514764800 false;
            FileInfo.mk "metrics" 4096 1514764800 true]
           []
           (FileInfo.mk "spark-defaults.conf" 3 1514764800 false)
           []).
  - reflexivity.
  - repeat (constructor; [reflexivity|]); constructor.
  - reflexivity.
  - reflexivity.
Defined.

Lemma buildConfigMapFromConfigDir_succeeds_iff_witness :
  (exists cm : ConfigMap.t,
      @buildConfigMapFromConfigDir fnv.hash32 (memfs.platform Fixture.fs)
        "/etc/spark/conf" SparkConfigMapNamePrefix "ns1" "uid-123" = (Some cm, None)) /\
  ~ (exists cm : ConfigMap.t,
        @buildConfigMapFromConfigDir fnv.hash32 (memfs.platform Fixture.broken_fs)
          "/etc/spark/conf" SparkConfigMapNamePrefix "ns1" "uid-123" = (Some cm, None)).
Proof.
  split.
  - apply (proj1 (@buildConfigMapFromConfigDir_succeeds_iff fnv.hash32
                    (memfs.platform Fixture.fs)
                    "/etc/spark/conf" SparkConfigMapNamePrefix "ns1" "uid-123")).
    split; [reflexivity|].
    repeat (constructor; [reflexivity|]); constructor.
  - intros Hsome.
    apply (proj1 (@buildConfigMapFromConfigDir_succeeds_iff fnv.hash32
                    (memfs.platform Fixture.broken_fs)
                    "/etc/spark/conf" SparkConfigMapNamePrefix "ns1" "uid-123"))
      in Hsome as [_ Hread].
    apply Forall_cons in Hread as [_ Hread].
    apply Forall_cons in Hread as [Hread _].
    discriminate Hread.
Defined.

(** ** Names *)

Lemma Sprintf_d_inj (n m : N) : Sprintf_d n = Sprintf_d m -> n = m.
Proof.
  unfold Sprintf_d. intros Heq.
  apply (f_equal NilEmpty.uint_of_string) in Heq.
  rewrite !NilEmpty.usu in Heq. injection Heq as Heq.
  rewrite <- (DecimalN.Unsigned.of_to n), <- (DecimalN.Unsigned.of_to m), Heq.
  reflexivity.
Qed.

Lemma comma_free_string_of_uint (d : Decimal.uint) :
  comma_free (NilEmpty.string_of_uint d) = true.
Proof. induction d; cbn; assumption || reflexivity. Qed.

Lemma fold_left_Write_streaming (hash32 : Hash32) :
  streaming hash32 ->
  forall (chunks : list (list byte)) (h : hash_state) (last : list byte),
    Write (fold_left Write chunks h) last = Write h (concat chunks ++ last)%list.
Proof.
  intros Hstream. induction chunks as [|chunk chunks IH]; intros h last; [reflexivity|].
  cbn [fold_left concat]. rewrite IH, Hstream, <- app_assoc. reflexivity.
Qed.

(** X5. File names do not enter the name of the bundle: two directories of
    the same path whose non-directory files hold, in listing order, the same
    bytes give ConfigMaps of the same name, whatever the files are called
    and however many directories lie between them. *)
Theorem bundle_name_ignores_file_names (hash32 : Hash32) (p1 p2 : Platform)
    (dir namePrefix namespace appUID : string) (files1 files2 : list FileInfo.t) :
  @ioutil_ReadDir p1 dir = (files1, None) ->
  @ioutil_ReadDir p2 dir = (files2, None) ->
  Forall (@readable p1 dir) (regular_files files1) ->
  Forall (@readable p2 dir) (regular_files files2) ->
  map (@file_content p1 dir) (regular_files files1)
  = map (@file_content p2 dir) (regular_files files2) ->
  exists cm1 cm2 : ConfigMap.t,
    @buildConfigMapFromConfigDir hash32 p1 dir namePrefix namespace appUID = (Some cm1, None) /\
    @buildConfigMapFromConfigDir hash32 p2 dir namePrefix namespace appUID = (Some cm2, None) /\
    ConfigMap.Name cm1 = ConfigMap.Name cm2.
Proof.
  intros Hdir1 Hdir2 Hread1 Hread2 Hsame.
  eexists _, _. split; [|split].
  - apply buildConfigMapFromConfigDir_ok; eassumption.
  - apply buildConfigMapFromConfigDir_ok; eassumption.
  - cbn [ConfigMap.Name]. unfold bundle_name, bundle_hash. rewrite Hsame. reflexivity.
Qed.

Lemma bundle_name_ignores_file_names_witness :
  exists cm1 cm2 : ConfigMap.t,
    @buildConfigMapFromConfigDir fnv.hash32 (memfs.platform Fixture.fs)
      "/etc/spark/conf" SparkConfigMapNamePrefix "ns1" "uid-123" = (Some cm1, None) /\
    @buildConfigMapFromConfigDir fnv.hash32 (memfs.platform Fixture2.renamed_fs)
      "/etc/spark/conf" SparkConfigMapNamePrefix "ns1" "uid-123" = (Some cm2, None) /\
    ConfigMap.Name cm1 = ConfigMap.Name cm2.
Proof.
  apply (bundle_name_ignores_file_names fnv.hash32
           (memfs.platform Fixture.fs) (memfs.platform Fixture2.renamed_fs)
           "/etc/spark/conf" SparkConfigMapNamePrefix "ns1" "uid-123"
           Fixture.conf_dir
           [FileInfo.mk "a.properties" 3 0 false; FileInfo.mk "b.conf" 3 0 false]).
  - reflexivity.
  - reflexivity.
  - repeat (constructor; [reflexivity|]); constructor.
  - repeat (constructor; [reflexivity|]); constructor.
  - reflexivity.
Defined.

(** X6. With a hasher that runs over a stream, only the concatenation of
    what is written counts: the name of the bundle is the sum over the bytes
    of all non-directory files, the directory path, the namespace and the
    owner UID laid end to end, so neither the cuts between the files nor the
    cuts between the three context fields enter the name. *)
Theorem bundle_name_of_concatenation (hash32 : Hash32) (platform : Platform)
    (dir namePrefix namespace appUID : string) (files : list FileInfo.t) :
  streaming hash32 ->
  ioutil_ReadDir dir = (files, None) ->
  Forall (readable dir) (regular_files files) ->
  exists cm : ConfigMap.t,
    buildConfigMapFromConfigDir dir namePrefix namespace appUID = (Some cm, None) /\
    ConfigMap.Name cm
    = namePrefix +:+ "-" +:+
      Sprintf_d
        (Sum32
           (Write NewHash32
              (concat (map (file_content dir) (regular_files files))
                 ++ bytes_of_string dir ++ bytes_of_string namespace
                 ++ bytes_of_string appUID)%list)).
Proof.
  intros Hstream Hdir Hread. eexists. split.
  { apply buildConfigMapFromConfigDir_ok; eassumption. }
  cbn [ConfigMap.Name]. unfold bundle_name, bundle_hash.
  rewrite fold_left_app. cbn [fold_left].
  rewrite !Hstream, fold_left_Write_streaming by exact Hstream.
  reflexivity.
Qed.

Lemma fnv_streaming : streaming fnv.hash32.
Proof. intros h a b. symmetry. apply fold_left_app. Qed.

Lemma bundle_name_of_concatenation_witness :
  streaming fnv.hash32 /\
  exists cm cm' : ConfigMap.t,
    @buildConfigMapFromConfigDir fnv.hash32 (memfs.platform Fixture.fs)
      "/etc/spark/conf" SparkConfigMapNamePrefix "ns1" "uid-123" = (Some cm, None) /\
    @buildConfigMapFromConfigDir fnv.hash32 (memfs.platform Fixture2.recut_fs)
      "/etc/spark/conf" SparkConfigMapNamePrefix "ns1" "uid-123" = (Some cm', None) /\
    ConfigMap.Name cm = ConfigMap.Name cm'.
Proof.
  split; [exact fnv_streaming|].
  destruct (bundle_name_of_concatenation fnv.hash32 (memfs.platform Fixture.fs)
              "/etc/spark/conf" SparkConfigMapNamePrefix "ns1" "uid-123"
              Fixture.conf_dir fnv_streaming eq_refl)
    as (cm & Hrun & Hname).
  { repeat (constructor; [reflexivity|]); constructor. }
  destruct (bundle_name_of_concatenation fnv.hash32 (memfs.platform Fixture2.recut_fs)
              "/etc/spark/conf" SparkConfigMapNamePrefix "ns1" "uid-123"
              [FileInfo.mk "one" 1 0 false; FileInfo.mk "two" 5 0 false]
              fnv_streaming eq_refl)
    as (cm' & Hrun' & Hname').
  { repeat (constructor; [reflexivity|]); constructor. }
  exists cm, cm'. split; [exact Hrun|]. split; [exact Hrun'|].
  rewrite Hname, Hname'. reflexivity.
Defined.

(** X7. Under one prefix, two bundles have the same name exactly when their
    32-bit sums are the same: the decimal rendering of the sum loses
    nothing, so a clash of names is a clash of hashes and nothing else. *)
Theorem bundle_names_equal_iff_hashes (hash32 : Hash32) (p1 p2 : Platform)
    (namePrefix dir1 dir2 namespace1 namespace2 appUID1 appUID2 : string)
    (cm1 cm2 : ConfigMap.t) :
  fst (@buildConfigMapFromConfigDir hash32 p1 dir1 namePrefix namespace1 appUID1) = Some cm1 ->
  fst (@buildConfigMapFromConfigDir hash32 p2 dir2 namePrefix namespace2 appUID2) = Some cm2 ->
  (ConfigMap.Name cm1 = ConfigMap.Name cm2
   <->
   @bundle_hash hash32 p1 dir1 namespace1 appUID1 (fst (@ioutil_ReadDir p1 dir1))
   = @bundle_hash hash32 p2 dir2 namespace2 appUID2 (fst (@ioutil_ReadDir p2 dir2))).
Proof.
  intros H1 H2.
  apply buildConfigMapFromConfigDir_Some in H1 as (_ & _ & ->).
  apply buildConfigMapFromConfigDir_Some in H2 as (_ & _ & ->).
  cbn [ConfigMap.Name]. unfold bundle_name. split.
  - intros Heq. apply Sprintf_d_inj.
    apply (inj (String.app "-")), (inj (String.app namePrefix)), Heq.
  - intros ->. reflexivity.
Qed.

Lemma bundle_names_equal_iff_hashes_witness :
  exists cm1 cm2 : ConfigMap.t,
    fst (@buildConfigMapFromConfigDir fnv.hash32 (memfs.platform Fixture.fs)
           "/etc/spark/conf" SparkConfigMapNamePrefix "ns1" "uid-123") = Some cm1 /\
    fst (@buildConfigMapFromConfigDir fnv.hash32 (memfs.platform Fixture.fs)
           "/etc/empty" SparkConfigMapNamePrefix "ns1" "uid-123") = Some cm2 /\
    ConfigMap.Name cm1 <> ConfigMap.Name cm2.
Proof.
  eexists _, _. split; [vm_compute; reflexivity|]. split; [vm_compute; reflexivity|].
  intros Heq.
  apply (bundle_names_equal_iff_hashes fnv.hash32
           (memfs.platform Fixture.fs) (memfs.platform Fixture.fs)
           SparkConfigMapNamePrefix "/etc/spark/conf" "/etc/empty"
           "ns1" "ns1" "uid-123" "uid-123" _ _ eq_refl eq_refl) in Heq.
  vm_compute in Heq. discriminate Heq.
Defined.

(** X8. A Spark bundle and a Hadoop bundle never share a name, whatever
    the directories, namespaces and owners are and whatever they hash to. *)
Theorem spark_and_hadoop_names_differ (hash32 : Hash32) (p1 p2 : Platform)
    (dir1 dir2 namespace1 namespace2 appUID1 appUID2 : string)
    (cm1 cm2 : ConfigMap.t) :
  fst (@buildConfigMapFromConfigDir hash32 p1 dir1 SparkConfigMapNamePrefix
         namespace1 appUID1) = Some cm1 ->
  fst (@buildConfigMapFromConfigDir hash32 p2 dir2 HadoopConfigMapNamePrefix
         namespace2 appUID2) = Some cm2 ->
  ConfigMap.Name cm1 <> ConfigMap.Name cm2.
Proof.
  intros H1 H2.
  apply buildConfigMapFromConfigDir_Some in H1 as (_ & _ & ->).
  apply buildConfigMapFromConfigDir_Some in H2 as (_ & _ & ->).
  cbn [ConfigMap.Name]. unfold bundle_name.
  unfold SparkConfigMapNamePrefix, HadoopConfigMapNamePrefix.
  rewrite !append_cons. discriminate.
Qed.

Section BundleNames.
Context {hash32 : Hash32} {platform : Platform}.

(** X9. The name of a bundle holds no comma when its prefix holds none, as
    is the case of both prefixes of the package: an annotation entry that
    carries the name of a Spark or a Hadoop bundle is cut at no comma of its
    own. *)
Theorem bundle_name_comma_free
    (dir namePrefix namespace appUID : string) (cm : ConfigMap.t) :
  fst (buildConfigMapFromConfigDir dir namePrefix namespace appUID) = Some cm ->
  comma_free namePrefix = true ->
  comma_free (ConfigMap.Name cm) = true /\
  (namePrefix = SparkConfigMapNamePrefix ->
   split_commas (annotation_entry (SparkConfigMapAnnotation, ConfigMap.Name cm))
   = [annotation_entry (SparkConfigMapAnnotation, ConfigMap.Name cm)]) /\
  (namePrefix = HadoopConfigMapNamePrefix ->
   split_commas (annotation_entry (HadoopConfigMapAnnotation, ConfigMap.Name cm))
   = [annotation_entry (HadoopConfigMapAnnotation, ConfigMap.Name cm)]).
Proof.
  intros Hrun Hprefix.
  apply buildConfigMapFromConfigDir_Some in Hrun as (_ & _ & ->).
  cbn [ConfigMap.Name].
  assert (comma_free (bundle_name dir namePrefix namespace appUID
                        (fst (ioutil_ReadDir dir))) = true) as Hfree.
  { unfold bundle_name, Sprintf_d.
    rewrite !comma_free_append, Hprefix, comma_free_string_of_uint. reflexivity. }
  split; [exact Hfree|].
  split; intros _; apply split_commas_comma_free;
    rewrite comma_free_annotation_entry; cbn [fst snd]; rewrite Hfree; reflexivity.
Qed.

(** X10. When the non-directory entries of the listing have distinct names,
    as the entries of a directory have, the data map of the ConfigMap has
    exactly one key for each of them. *)
Theorem bundle_data_size
    (dir namePrefix namespace appUID : string) (cm : ConfigMap.t) :
  fst (buildConfigMapFromConfigDir dir namePrefix namespace appUID) = Some cm ->
  NoDup (map FileInfo.Name (regular_files (fst (ioutil_ReadDir dir)))) ->
  size (ConfigMap.Data cm) = length (regular_files (fst (ioutil_ReadDir dir))).
Proof.
  intros Hrun Hnodup.
  apply buildConfigMapFromConfigDir_Some in Hrun as (_ & _ & ->).
  cbn [ConfigMap.Data]. unfold bundle_files.
  rewrite map_size_list_to_map.
  - apply length_map.
  - rewrite <- list_fmap_compose.
    replace (fst ∘ _) with FileInfo.Name by reflexivity. exact Hnodup.
Qed.

End BundleNames.

Lemma spark_and_hadoop_names_differ_witness :
  exists cm1 cm2 : ConfigMap.t,
    fst (@buildConfigMapFromConfigDir fnv.hash32 (memfs.platform Fixture2.both_fs)
           "/etc/spark/conf" SparkConfigMapNamePrefix "ns1" "uid-123") = Some cm1 /\
    fst (@buildConfigMapFromConfigDir fnv.hash32 (memfs.platform Fixture2.both_fs)
           "/etc/hadoop/conf" HadoopConfigMapNamePrefix "ns1" "uid-123") = Some cm2 /\
    ConfigMap.Name cm1 <> ConfigMap.Name cm2.
Proof.
  eexists _, _. split; [vm_compute; reflexivity|]. split; [vm_compute; reflexivity|].
  apply (spark_and_hadoop_names_differ fnv.hash32
           (memfs.platform Fixture2.both_fs) (memfs.platform Fixture2.both_fs)
           "/etc/spark/conf" "/etc/hadoop/conf" "ns1" "ns1" "uid-123" "uid-123");
    vm_compute; reflexivity.
Defined.

Lemma bundle_name_comma_free_witness :
  comma_free SparkConfigMapNamePrefix = true /\
  split_commas "apache-spark-on-k8s/spark-config-map=spark-config-map-2052736648"
  = ["apache-spark-on-k8s/spark-config-map=spark-config-map-2052736648"].
Proof.
  split; [reflexivity|].
  destruct (@bundle_name_comma_free fnv.hash32 (memfs.platform Fixture.fs)
              "/etc/spark/conf" SparkConfigMapNamePrefix "ns1" "uid-123"
              Fixture2.spark_cm)
    as (_ & Hspark & _); [vm_compute; reflexivity|reflexivity|].
  exact (Hspark eq_refl).
Defined.

Lemma bundle_data_size_witness :
  NoDup (map FileInfo.Name (regular_files Fixture.conf_dir)) /\
  size (ConfigMap.Data Fixture2.spark_cm) = 2.
Proof.
  assert (NoDup (map FileInfo.Name (regular_files Fixture.conf_dir))) as Hnodup.
  { cbn. apply NoDup_cons. split; [|apply NoDup_singleton].
    intros H%list_elem_of_singleton. discriminate H. }
  split; [exact Hnodup|].
  apply (@bundle_data_size fnv.hash32 (memfs.platform Fixture.fs)
           "/etc/spark/conf" SparkConfigMapNamePrefix "ns1" "uid-123" Fixture2.spark_cm);
    [vm_compute; reflexivity|exact Hnodup].
Defined.

(** ** The annotation registry and the two pipelines, composed *)

Lemma registered_commute (K1 K2 key1 value1 key2 value2 : string)
    (conf : gmap string string) :
  K1 <> K2 ->
  registered K2 key2 value2 (registered K1 key1 value1 conf)
  = registered K1 key1 value1 (registered K2 key2 value2 conf).
Proof.
  intros Hne. unfold registered.
  rewrite !lookup_insert_ne by congruence.
  apply insert_insert_ne. congruence.
Qed.

Section Pipelines.
Context {hash32 : Hash32} {platform : Platform} {kube : KubeClient}.

(** X11. Registrations under different annotation keys do not interfere:
    two calls of [AddConfigMapAnnotation] on different keys give the same
    result in either order, on a nil [SparkConf] (both orders panic and
    change nothing) as on a map. *)
Theorem AddConfigMapAnnotation_keys_commute
    (K1 K2 key1 value1 key2 value2 : string) (w : world) :
  K1 <> K2 ->
  (AddConfigMapAnnotation K1 key1 value1;; AddConfigMapAnnotation K2 key2 value2) w
  = (AddConfigMapAnnotation K2 key2 value2;; AddConfigMapAnnotation K1 key1 value1) w.
Proof.
  intros Hne. destruct w as [app c]. unfold mbind, M_bind.
  destruct (SparkApplicationSpec.SparkConf (SparkApplication.Spec app))
    as [conf|] eqn:Hconf.
  - rewrite !(AddConfigMapAnnotation_run _ _ _ _ _ _ Hconf).
    erewrite !AddConfigMapAnnotation_run by reflexivity.
    rewrite !with_SparkConf_twice, (registered_commute K1 K2) by exact Hne.
    reflexivity.
  - rewrite !(AddConfigMapAnnotation_nil _ _ _ _ _ Hconf). reflexivity.
Qed.

(** What [CreateSparkConfigMap] and [CreateHadoopConfigMap] do once the
    ConfigMap is created, on a map and on a nil [SparkConf]. *)
Lemma CreateSparkConfigMap_run (dir namespace : string)
    (app : SparkApplication.t) (c c' : cluster) (cm cm' : ConfigMap.t) :
  buildConfigMapFromConfigDir dir SparkConfigMapNamePrefix namespace
    (SparkApplication.UID app) = (Some cm, None) ->
  ConfigMaps_Create namespace (Some cm) c = ((Some cm', None), c') ->
  CreateSparkConfigMap dir namespace (World app c)
  = match SparkApplicationSpec.SparkConf (SparkApplication.Spec app) with
    | Some conf =>
        (Returns None,
         World (SparkApplication.mk (SparkApplication.UID app)
                  (SparkApplicationSpec.mk
                     (Some (registered SparkExecutorAnnotationsKey SparkConfigMapAnnotation
                              (ConfigMap.Name cm')
                              (registered SparkDriverAnnotationsKey SparkConfigMapAnnotation
                                 (ConfigMap.Name cm') conf)))
                     (Some (ConfigMap.Name cm'))
                     (SparkApplicationSpec.HadoopConfigMap (SparkApplication.Spec app))))
               c')
    | None => (Panics NilMapAssignment, World app c')
    end.
Proof.
  intros Hbuild Hcreate. unfold CreateSparkConfigMap, mbind, M_bind.
  rewrite (createConfigMap_created dir namespace SparkConfigMapNamePrefix
             app c c' cm cm' Hbuild Hcreate).
  destruct (SparkApplicationSpec.SparkConf (SparkApplication.Spec app))
    as [conf|] eqn:Hconf.
  - rewrite (AddConfigMapAnnotation_run _ _ _ _ _ _ Hconf).
    erewrite AddConfigMapAnnotation_run by reflexivity. reflexivity.
  - rewrite (AddConfigMapAnnotation_nil _ _ _ _ _ Hconf). reflexivity.
Qed.

Lemma CreateHadoopConfigMap_run (dir namespace : string)
    (app : SparkApplication.t) (c c' : cluster) (cm cm' : ConfigMap.t) :
  buildConfigMapFromConfigDir dir HadoopConfigMapNamePrefix namespace
    (SparkApplication.UID app) = (Some cm, None) ->
  ConfigMaps_Create namespace (Some cm) c = ((Some cm', None), c') ->
  CreateHadoopConfigMap dir namespace (World app c)
  = match SparkApplicationSpec.SparkConf (SparkApplication.Spec app) with
    | Some conf =>
        (Returns None,
         World (SparkApplication.mk (SparkApplication.UID app)
                  (SparkApplicationSpec.mk
                     (Some (registered SparkExecutorAnnotationsKey HadoopConfigMapAnnotation
                              (ConfigMap.Name cm')
                              (registered SparkDriverAnnotationsKey HadoopConfigMapAnnotation
                                 (ConfigMap.Name cm') conf)))
                     (SparkApplicationSpec.SparkConfigMap (SparkApplication.Spec app))
                     (Some (ConfigMap.Name cm'))))
               c')
    | None => (Panics NilMapAssignment, World app c')
    end.
Proof.
  intros Hbuild Hcreate. unfold CreateHadoopConfigMap, mbind, M_bind.
  rewrite (createConfigMap_created dir namespace HadoopConfigMapNamePrefix
             app c c' cm cm' Hbuild Hcreate).
  destruct (SparkApplicationSpec.SparkConf (SparkApplication.Spec app))
    as [conf|] eqn:Hconf.
  - rewrite (AddConfigMapAnnotation_run _ _ _ _ _ _ Hconf).
    erewrite AddConfigMapAnnotation_run by reflexivity. reflexivity.
  - rewrite (AddConfigMapAnnotation_nil _ _ _ _ _ Hconf). reflexivity.
Qed.

(** X12. A failed create request whose returned pointer is not nil: both
    [CreateSparkConfigMap] and [CreateHadoopConfigMap] return exactly the
    error of the client, leave the application as it was, and leave the
    cluster as the client left it. *)
Theorem Create_error_returned_verbatim (dir namespace : string)
    (app : SparkApplication.t) (c c' : cluster) (cm cm' : ConfigMap.t) (e : error) :
  ConfigMaps_Create namespace (Some cm) c = ((Some cm', Some e), c') ->
  (buildConfigMapFromConfigDir dir SparkConfigMapNamePrefix namespace
     (SparkApplication.UID app) = (Some cm, None) ->
   CreateSparkConfigMap dir namespace (World app c) = (Returns (Some e), World app c')) /\
  (buildConfigMapFromConfigDir dir HadoopConfigMapNamePrefix namespace
     (SparkApplication.UID app) = (Some cm, None) ->
   CreateHadoopConfigMap dir namespace (World app c) = (Returns (Some e), World app c')).
Proof.
  intros Hcreate. split; intros Hbuild.
  - unfold CreateSparkConfigMap, mbind, M_bind.
    rewrite (createConfigMap_create_error dir namespace SparkConfigMapNamePrefix
               app c c' cm cm' e Hbuild Hcreate).
    reflexivity.
  - unfold CreateHadoopConfigMap, mbind, M_bind.
    rewrite (createConfigMap_create_error dir namespace HadoopConfigMapNamePrefix
               app c c' cm cm' e Hbuild Hcreate).
    reflexivity.
Qed.

End Pipelines.

Lemma AddConfigMapAnnotation_keys_commute_witness :
  SparkDriverAnnotationsKey <> SparkExecutorAnnotationsKey /\
  (AddConfigMapAnnotation SparkDriverAnnotationsKey "k" "a";;
   AddConfigMapAnnotation SparkExecutorAnnotationsKey "k" "b") (Fixture.w0 (Some ∅))
  = (AddConfigMapAnnotation SparkExecutorAnnotationsKey "k" "b";;
     AddConfigMapAnnotation SparkDriverAnnotationsKey "k" "a") (Fixture.w0 (Some ∅)).
Proof.
  split; [discriminate|].
  apply (@AddConfigMapAnnotation_keys_commute memkube.client). discriminate.
Defined.

Lemma Create_error_returned_verbatim_witness :
  memkube.Create "ns1" (Some Fixture2.spark_cm) [Fixture2.spark_cm]
  = ((Some (ConfigMap.mk "" "" ∅),
      Some (memkube.AlreadyExists "spark-config-map-2052736648")),
     [Fixture2.spark_cm]) /\
  @CreateSparkConfigMap fnv.hash32 (memfs.platform Fixture.fs) memkube.client
    "/etc/spark/conf" "ns1" (Fixture2.w_taken (Some ∅))
  = (Returns (Some (memkube.AlreadyExists "spark-config-map-2052736648")),
     Fixture2.w_taken (Some ∅)).
Proof.
  assert (memkube.Create "ns1" (Some Fixture2.spark_cm) [Fixture2.spark_cm]
          = ((Some (ConfigMap.mk "" "" ∅),
              Some (memkube.AlreadyExists "spark-config-map-2052736648")),
             [Fixture2.spark_cm])) as Hcreate by (vm_compute; reflexivity).
  split; [exact Hcreate|].
  destruct (@Create_error_returned_verbatim fnv.hash32 (memfs.platform Fixture.fs)
              memkube.client "/etc/spark/conf" "ns1" (Fixture.app (Some ∅))
              [Fixture2.spark_cm] [Fixture2.spark_cm] Fixture2.spark_cm
              (ConfigMap.mk "" "" ∅)
              (memkube.AlreadyExists "spark-config-map-2052736648") Hcreate)
    as [Hspark _].
  apply Hspark. vm_compute; reflexivity.
Defined.

Section PipelineEffects.
Context {hash32 : Hash32} {platform : Platform} {kube : KubeClient}.

Lemma CreateHadoopConfigMap_failure_keeps_app (dir namespace : string) (w w' : world)
    (o : outcome (option error)) :
  CreateHadoopConfigMap dir namespace w = (o, w') ->
  o <> Returns None ->
  the_app w' = the_app w.
Proof.
  unfold CreateHadoopConfigMap. unfold mbind at 1. unfold M_bind at 1.
  destruct (createConfigMap dir namespace HadoopConfigMapNamePrefix w)
    as [[[name [e|]]|p] w1] eqn:Hcreate;
    apply createConfigMap_keeps_app in Hcreate.
  - intros [= _ <-] _. exact Hcreate.
  - destruct w1 as [app1 c1]. cbn [the_app] in Hcreate. subst app1.
    intros Hrun Ho. unfold mbind, M_bind in Hrun.
    destruct (SparkApplicationSpec.SparkConf (SparkApplication.Spec (the_app w)))
      as [conf|] eqn:Hc.
    + rewrite (AddConfigMapAnnotation_run _ _ _ _ _ _ Hc) in Hrun.
      erewrite AddConfigMapAnnotation_run in Hrun by reflexivity.
      cbn in Hrun. injection Hrun as <- _. contradiction.
    + rewrite (AddConfigMapAnnotation_nil _ _ _ _ _ Hc) in Hrun.
      injection Hrun as _ <-. reflexivity.
  - intros [= _ <-] _. exact Hcreate.
Qed.

(** X13. Nothing is committed to the application unless the whole call
    succeeds: whenever [CreateSparkConfigMap] or [CreateHadoopConfigMap]
    ends in any other way than returning a nil error (an error returned, or
    a panic of either kind), the application is exactly as it was before
    the call: no annotation added, no ConfigMap name set. *)
Theorem Create_failure_commits_nothing (dir namespace : string) (w w' : world)
    (o : outcome (option error)) :
  o <> Returns None ->
  (CreateSparkConfigMap dir namespace w = (o, w') -> the_app w' = the_app w) /\
  (CreateHadoopConfigMap dir namespace w = (o, w') -> the_app w' = the_app w).
Proof.
  intros Ho. split; intros Hrun.
  - eapply CreateSparkConfigMap_failure_keeps_app; eassumption.
  - eapply CreateHadoopConfigMap_failure_keeps_app; eassumption.
Qed.

(** The cluster after [createConfigMap]: untouched when the build fails,
    else as the one create request left it. *)
Lemma createConfigMap_cluster (dir namespace namePrefix : string) (w w' : world)
    (o : outcome (string * option error)) :
  createConfigMap dir namespace namePrefix w = (o, w') ->
  the_cluster w'
  = match snd (buildConfigMapFromConfigDir dir namePrefix namespace
                 (SparkApplication.UID (the_app w))) with
    | Some _ => the_cluster w
    | None =>
        snd (ConfigMaps_Create namespace
               (fst (buildConfigMapFromConfigDir dir namePrefix namespace
                       (SparkApplication.UID (the_app w))))
               (the_cluster w))
    end.
Proof.
  unfold createConfigMap, mbind, M_bind, get_app, Create, deref, mret, M_ret.
  destruct (buildConfigMapFromConfigDir _ _ _ _) as [[cm|] [e|]]; cbn [fst snd];
    try (intros [= _ <-]; reflexivity);
    destruct (ConfigMaps_Create _ _ _) as [[[cm'|] [e|]] c'];
    intros [= _ <-]; reflexivity.
Qed.

Lemma AddConfigMapAnnotation_keeps_cluster (K key value : string) (w : world) :
  the_cluster (snd (AddConfigMapAnnotation K key value w)) = the_cluster w.
Proof.
  destruct w as [app c].
  destruct (SparkApplicationSpec.SparkConf (SparkApplication.Spec app))
    as [conf|] eqn:Hconf.
  - rewrite (AddConfigMapAnnotation_run _ _ _ _ _ _ Hconf). reflexivity.
  - rewrite (AddConfigMapAnnotation_nil _ _ _ _ _ Hconf). reflexivity.
Qed.

Lemma CreateSparkConfigMap_cluster (dir namespace : string) (w : world) :
  the_cluster (snd (CreateSparkConfigMap dir namespace w))
  = the_cluster (snd (createConfigMap dir namespace SparkConfigMapNamePrefix w)).
Proof.
  unfold CreateSparkConfigMap. unfold mbind at 1. unfold M_bind at 1.
  destruct (createConfigMap dir namespace SparkConfigMapNamePrefix w)
    as [[[name [e|]]|p] [app1 c1]]; [reflexivity| |reflexivity].
  unfold mbind, M_bind.
  destruct (SparkApplicationSpec.SparkConf (SparkApplication.Spec app1))
    as [conf|] eqn:Hconf.
  - rewrite (AddConfigMapAnnotation_run _ _ _ _ _ _ Hconf).
    erewrite AddConfigMapAnnotation_run by reflexivity. reflexivity.
  - rewrite (AddConfigMapAnnotation_nil _ _ _ _ _ Hconf). reflexivity.
Qed.

Lemma CreateHadoopConfigMap_cluster (dir namespace : string) (w : world) :
  the_cluster (snd (CreateHadoopConfigMap dir namespace w))
  = the_cluster (snd (createConfigMap dir namespace HadoopConfigMapNamePrefix w)).
Proof.
  unfold CreateHadoopConfigMap. unfold mbind at 1. unfold M_bind at 1.
  destruct (createConfigMap dir namespace HadoopConfigMapNamePrefix w)
    as [[[name [e|]]|p] [app1 c1]]; [reflexivity| |reflexivity].
  unfold mbind, M_bind.
  destruct (SparkApplicationSpec.SparkConf (SparkApplication.Spec app1))
    as [conf|] eqn:Hconf.
  - rewrite (AddConfigMapAnnotation_run _ _ _ _ _ _ Hconf).
    erewrite AddConfigMapAnnotation_run by reflexivity. reflexivity.
  - rewrite (AddConfigMapAnnotation_nil _ _ _ _ _ Hconf). reflexivity.
Qed.

(** X14. The cluster sees at most one request per call, and it is the
    create request for the ConfigMap that was built: however
    [CreateSparkConfigMap] or [CreateHadoopConfigMap] ends, the cluster is
    untouched when the build failed, and is otherwise exactly as that one
    create request left it; in particular a ConfigMap created before a panic
    on a nil [SparkConf] stays in the cluster. *)
Theorem cluster_sees_one_create_request (dir namespace : string) (w : world) :
  let after (namePrefix : string) :=
    match snd (buildConfigMapFromConfigDir dir namePrefix namespace
                 (SparkApplication.UID (the_app w))) with
    | Some _ => the_cluster w
    | None =>
        snd (ConfigMaps_Create namespace
               (fst (buildConfigMapFromConfigDir dir namePrefix namespace
                       (SparkApplication.UID (the_app w))))
               (the_cluster w))
    end in
  the_cluster (snd (CreateSparkConfigMap dir namespace w)) = after SparkConfigMapNamePrefix /\
  the_cluster (snd (CreateHadoopConfigMap dir namespace w)) = after HadoopConfigMapNamePrefix.
Proof.
  cbn zeta. rewrite CreateSparkConfigMap_cluster, CreateHadoopConfigMap_cluster.
  split.
  - destruct (createConfigMap dir namespace SparkConfigMapNamePrefix w)
      as [o w'] eqn:Hrun.
    apply (createConfigMap_cluster _ _ _ _ _ _ Hrun).
  - destruct (createConfigMap dir namespace HadoopConfigMapNamePrefix w)
      as [o w'] eqn:Hrun.
    apply (createConfigMap_cluster _ _ _ _ _ _ Hrun).
Qed.

(** X15. The two pipelines on one application, Spark first: when both
    builds and both create requests succeed and neither annotation key was
    set, both calls return a nil error, each annotation key ends with the
    Spark entry followed by the Hadoop entry, both ConfigMap names are set,
    and every other key of [SparkConf] is as before. *)
Theorem spark_then_hadoop (sparkConfDir hadoopConfDir namespace : string)
    (app : SparkApplication.t) (c c1 c2 : cluster) (conf : gmap string string)
    (cmS cmS' cmH cmH' : ConfigMap.t) :
  SparkApplicationSpec.SparkConf (SparkApplication.Spec app) = Some conf ->
  conf !! SparkDriverAnnotationsKey = None ->
  conf !! SparkExecutorAnnotationsKey = None ->
  buildConfigMapFromConfigDir sparkConfDir SparkConfigMapNamePrefix namespace
    (SparkApplication.UID app) = (Some cmS, None) ->
  ConfigMaps_Create namespace (Some cmS) c = ((Some cmS', None), c1) ->
  buildConfigMapFromConfigDir hadoopConfDir HadoopConfigMapNamePrefix namespace
    (SparkApplication.UID app) = (Some cmH, None) ->
  ConfigMaps_Create namespace (Some cmH) c1 = ((Some cmH', None), c2) ->
  exists (w1 : world) (conf' : gmap string string),
    CreateSparkConfigMap sparkConfDir namespace (World app c) = (Returns None, w1) /\
    CreateHadoopConfigMap hadoopConfDir namespace w1
    = (Returns None,
       World (SparkApplication.mk (SparkApplication.UID app)
                (SparkApplicationSpec.mk (Some conf')
                   (Some (ConfigMap.Name cmS')) (Some (ConfigMap.Name cmH'))))
             c2) /\
    conf' !! SparkDriverAnnotationsKey
    = Some (annotation_value [(SparkConfigMapAnnotation, ConfigMap.Name cmS');
                              (HadoopConfigMapAnnotation, ConfigMap.Name cmH')]) /\
    conf' !! SparkExecutorAnnotationsKey
    = Some (annotation_value [(SparkConfigMapAnnotation, ConfigMap.Name cmS');
                              (HadoopConfigMapAnnotation, ConfigMap.Name cmH')]) /\
    (forall K : string,
        K <> SparkDriverAnnotationsKey -> K <> SparkExecutorAnnotationsKey ->
        conf' !! K = conf !! K).
Proof.
  intros Hconf Hdriver Hexecutor HbuildS HcreateS HbuildH HcreateH.
  eexists _, _. split; [|split].
  - rewrite (CreateSparkConfigMap_run _ _ _ _ _ _ _ HbuildS HcreateS), Hconf.
    reflexivity.
  - erewrite CreateHadoopConfigMap_run; [|exact HbuildH|exact HcreateH].
    reflexivity.
  - split; [|split].
    + rewrite registered_lookup_ne by discriminate.
      rewrite registered_lookup, registered_lookup_ne by discriminate.
      rewrite registered_lookup, Hdriver. cbn [appended].
      unfold annotation_value, annotation_entry. cbn [map fst snd String.concat].
      rewrite !append_assoc. reflexivity.
    + rewrite registered_lookup, registered_lookup_ne by discriminate.
      rewrite registered_lookup, registered_lookup_ne by discriminate.
      rewrite Hexecutor. cbn [appended].
      unfold annotation_value, annotation_entry. cbn [map fst snd String.concat].
      rewrite !append_assoc. reflexivity.
    + intros K Hd He. rewrite !registered_lookup_ne by assumption. reflexivity.
Qed.

End PipelineEffects.

Lemma Create_failure_commits_nothing_witness :
  @CreateSparkConfigMap fnv.hash32 (memfs.platform Fixture.fs) memkube.client
    "/nope" "ns1" (Fixture.w0 (Some ∅))
  = (Panics NilPointerDereference, Fixture.w0 (Some ∅)) /\
  Panics NilPointerDereference <> Returns (None : option error) /\
  the_app (Fixture.w0 (Some ∅)) = Fixture.app (Some ∅).
Proof.
  assert (@CreateSparkConfigMap fnv.hash32 (memfs.platform Fixture.fs) memkube.client
            "/nope" "ns1" (Fixture.w0 (Some ∅))
          = (Panics NilPointerDereference, Fixture.w0 (Some ∅))) as Hrun
      by (vm_compute; reflexivity).
  assert (Panics NilPointerDereference <> Returns (None : option error)) as Ho
      by discriminate.
  split; [exact Hrun|]. split; [exact Ho|].
  apply (proj1 (@Create_failure_commits_nothing fnv.hash32 (memfs.platform Fixture.fs)
                  memkube.client "/nope" "ns1"
                  (Fixture.w0 (Some ∅)) (Fixture.w0 (Some ∅))
                  (Panics NilPointerDereference) Ho) Hrun).
Defined.

Lemma spark_then_hadoop_witness :
  exists (w1 : @world memkube.client) (conf' : gmap string string),
    @CreateSparkConfigMap fnv.hash32 (memfs.platform Fixture2.both_fs) memkube.client
      "/etc/spark/conf" "ns1" (Fixture.w0 (Some ∅))
    = (Returns None, w1) /\
    @CreateHadoopConfigMap fnv.hash32 (memfs.platform Fixture2.both_fs) memkube.client
      "/etc/hadoop/conf" "ns1" w1
    = (Returns None,
       @World memkube.client
         (SparkApplication.mk "uid-123"
            (SparkApplicationSpec.mk (Some conf')
               (Some "spark-config-map-2052736648")
               (Some "hadoop-config-map-2188450577")))
         [Fixture2.spark_cm; Fixture2.hadoop_cm]) /\
    conf' !! SparkDriverAnnotationsKey
    = Some ("apache-spark-on-k8s/spark-config-map=spark-config-map-2052736648"
            +:+ ",apache-spark-on-k8s/hadoop-config-map=hadoop-config-map-2188450577").
Proof.
  destruct (@spark_then_hadoop fnv.hash32 (memfs.platform Fixture2.both_fs) memkube.client
              "/etc/spark/conf" "/etc/hadoop/conf" "ns1" (Fixture.app (Some ∅))
              [] [Fixture2.spark_cm] [Fixture2.spark_cm; Fixture2.hadoop_cm] ∅
              Fixture2.spark_cm Fixture2.spark_cm Fixture2.hadoop_cm Fixture2.hadoop_cm)
    as (w1 & conf' & Hspark & Hhadoop & Hdriver & _);
    try (vm_compute; reflexivity).
  exists w1, conf'. split; [exact Hspark|]. split; [exact Hhadoop|]. exact Hdriver.
Defined.

(** X16. [mountConfigMapToContainer] makes no check against what the
    container already holds: a second call keeps the mount and the variable
    of the first and adds its own after them, so the container then has two
    environment variables of the same name, and two mounts at the same path
    when the paths are the same; the name of the container is untouched. *)
Theorem mountConfigMapToContainer_no_collision_check
    (volumeName1 volumeName2 mountPath1 mountPath2 env : string)
    (container : Container.t) :
  let container2 :=
    mountConfigMapToContainer volumeName2 mountPath2 env
      (mountConfigMapToContainer volumeName1 mountPath1 env container) in
  Container.Name container2 = Container.Name container /\
  Container.VolumeMounts container2
  = (Container.VolumeMounts container
       ++ [VolumeMount.mk volumeName1 true mountPath1;
           VolumeMount.mk volumeName2 true mountPath2])%list /\
  Container.Env container2
  = (Container.Env container ++ [EnvVar.mk env mountPath1; EnvVar.mk env mountPath2])%list /\
  ~ NoDup (map EnvVar.Name (Container.Env container2)) /\
  (mountPath1 = mountPath2 ->
   ~ NoDup (map VolumeMount.MountPath (Container.VolumeMounts container2))).
Proof.
  cbn zeta.
  cbn [mountConfigMapToContainer Container.Name Container.VolumeMounts Container.Env].
  rewrite <- !app_assoc. cbn [app].
  split; [reflexivity|]. split; [reflexivity|]. split; [reflexivity|]. split.
  - rewrite map_app. cbn [map EnvVar.Name].
    intros [_ [_ Hdup]]%NoDup_app.
    apply NoDup_cons in Hdup as [Hnotin _]. apply Hnotin. left.
  - intros ->. rewrite map_app. cbn [map VolumeMount.MountPath].
    intros [_ [_ Hdup]]%NoDup_app.
    apply NoDup_cons in Hdup as [Hnotin _]. apply Hnotin. left.
Qed.

Lemma mountConfigMapToContainer_no_collision_check_witness :
  ~ NoDup
      (map VolumeMount.MountPath
         (Container.VolumeMounts
            (MountHadoopConfigMapToContainer HadoopConfigMapVolumeName DefaultSparkConfDir
               (MountHadoopConfigMapToContainer SparkConfigMapVolumeName DefaultSparkConfDir
                  Fixture.container)))).
Proof.
  destruct (mountConfigMapToContainer_no_collision_check
              SparkConfigMapVolumeName HadoopConfigMapVolumeName
              DefaultSparkConfDir DefaultSparkConfDir HadoopConfDirEnvVar
              Fixture.container)
    as (_ & _ & _ & _ & Hpaths).
  exact (Hpaths eq_refl).
Defined.

Lemma addConfigMapVolumeToPod_no_existence_check_witness :
  HadoopConfigMapVolumeName <> SparkConfigMapVolumeName /\
  volumes_named SparkConfigMapVolumeName
    (snd (AddSparkConfigMapVolumeToPod "spark-config-map-2052736648"
            (snd (AddSparkConfigMapVolumeToPod "spark-config-map-2052736648" Fixture.pod))))
  = 2 /\
  volumes_named HadoopConfigMapVolumeName
    (snd (AddSparkConfigMapVolumeToPod "spark-config-map-2052736648"
            (snd (AddSparkConfigMapVolumeToPod "spark-config-map-2052736648" Fixture.pod))))
  = 0.
Proof.
  destruct (addConfigMapVolumeToPod_no_existence_check
              "spark-config-map-2052736648" "spark-config-map-2052736648"
              SparkConfigMapVolumeName Fixture.pod)
    as (_ & Htwo & Hother & _).
  split; [discriminate|]. split; [exact Htwo|].
  apply (Hother HadoopConfigMapVolumeName). discriminate.
Defined.
